(** * Banking deposits tracker: recomputation engine and workbook contract

    A shallow embedding of [money_mangement.py]: the type normalizer
    [_sanitize_types], the aggregation engine [_recompute_from_main], the
    workbook reader and writer [_load_workbook] / [_to_excel_bytes], and the
    submit handler of the entry form.

    Modelling conventions.
    - A pandas [DataFrame] is its ordered list of column labels together with
      its rows; a row is a finite map from column label to cell, and a cell
      that a row does not hold reads as the missing value.
    - Amounts are binary64 floats in the source.  A number is taken here as
      the rational it denotes; infinities and the float NaN are outside the
      model, and the missing value of pandas (NaN, None, NaT) is the single
      cell [NaN].  The sums of pandas ([Series.sum], the sums of [groupby])
      are parameters, so nothing is assumed about their rounding; the
      instance [binary64_pandas] rounds as binary64 does.  The products,
      differences and quotients that the source computes cell by cell are
      written with the exact operations: every statement about them relates
      a stored value to the expression that the source evaluates.
    - A cell is a text, a number, a date or the missing value; booleans and
      times of day, which a spreadsheet can also hold, are left out.  A text
      is a Python str in UTF-8.
    - The conversions inside pandas (how a text parses as a date or as a
      number, which dates a timestamp holds) and the xlsx codec are not part
      of the repository; they are parameters: the record [pandas] and the
      variables of the workbook sections.
    - Of the exceptions that the source can raise, [KeyError] for a column
      that a table lacks and [ZeroDivisionError] are modelled.  A customer
      column that holds both numbers and dates makes [groupby] raise
      [TypeError]; such ledgers are outside the model. *)

From Stdlib Require Import QArith Lqa.
From stdpp Require Import gmap strings list fin_maps sorting.

#[local] Open Scope string_scope.
#[local] Open Scope list_scope.
#[local] Open Scope Q_scope.
#[local] Open Scope stdpp_scope.

(** ** Cells *)

Record date := Date { year : Z; month : Z; day : Z }.

Inductive cell :=
| Text (s : string)
| Num (x : Q)
| Day (d : date)
| NaN.

#[global] Instance Q_eq_dec : EqDecision Q.
Proof. solve_decision. Defined.
#[global] Instance date_eq_dec : EqDecision date.
Proof. solve_decision. Defined.
#[global] Instance cell_eq_dec : EqDecision cell.
Proof. solve_decision. Defined.
#[global] Instance cell_inhabited : Inhabited cell := populate NaN.

(** The numeric reading of a cell of a coerced column. *)
Definition cell_num (c : cell) : Q :=
  match c with Num x => x | _ => 0 end.

(** ** Exceptions *)

Inductive exn := KeyError | ZeroDivisionError.

Inductive result (A : Type) :=
| Ok (a : A)
| Raise (e : exn).
Arguments Ok {A} a.
Arguments Raise {A} e.

#[global] Instance result_ret : MRet result := λ A a, Ok a.
#[global] Instance result_bind : MBind result := λ A B f m,
  match m with Ok a => f a | Raise e => Raise e end.

(** ** What pandas decides

    What [pd.to_datetime] and [pd.to_numeric] make of a text cell, of a
    number read as a timestamp and of a date read as a number is decided
    inside pandas; [None] is a value that [errors='coerce'] turns into the
    missing value.  [pd.to_datetime] settles on one format for a column, so
    what it makes of a cell depends on the column the cell stands in, which
    is the first argument of [parse_datetime] and [epoch_date].  Which dates
    a timestamp can hold depends on the version of pandas: [timestamp_range].

    So is the arithmetic of a sum.  [Series.sum] and the sum of
    [groupby(...).agg] add the binary64 (or int64) numbers of a column with
    two different algorithms; both are parameters here, functions of the
    numbers they add, about which nothing is assumed (a column of integers,
    which pandas adds as int64, is not told apart from a float column with
    the same values).  The instance [binary64_pandas] below gives them their
    rounding. *)
Record pandas := Pandas {
  parse_datetime : list cell → string → option date;
  epoch_date : list cell → Q → option date;
  timestamp_range : date → bool;
  parse_number : string → option Q;
  date_number : date → option Q;
  series_sum : list Q → Q;
  group_sum : list Q → Q
}.

(** ** Data frames *)

Record DataFrame := Frame {
  columns : list string;
  rows : list (gmap string cell)
}.

(** [df.empty]: no column or no row. *)
Definition df_empty (df : DataFrame) : bool :=
  match columns df, rows df with
  | [], _ | _, [] => true
  | _, _ => false
  end.

(** [c in df.columns] *)
Definition has_col (c : string) (df : DataFrame) : bool :=
  bool_decide (c ∈ columns df).

(** [df[c] = g(row)]: replaces the column, or appends it when it is new. *)
Definition assign (c : string) (g : gmap string cell → cell) (df : DataFrame)
  : DataFrame :=
  {| columns := if has_col c df then columns df else columns df ++ [c];
     rows := map (λ r, <[c := g r]> r) (rows df) |}.

(** [df[c]] *)
Definition column (c : string) (df : DataFrame) : result (list cell) :=
  if has_col c df then Ok (map (λ r, r !!! c) (rows df)) else Raise KeyError.

(** The sum of rational numbers, without rounding. *)
Definition qsum (l : list Q) : Q := foldr Qplus 0 l.

(** [Series.sum()] of a coerced column, and the sum of one group of
    [groupby(...).agg({c: 'sum'})]. *)
Definition sum_cells (pd : pandas) (l : list cell) : Q :=
  series_sum pd (map cell_num l).

Definition sum_group (pd : pandas) (l : list cell) : Q :=
  group_sum pd (map cell_num l).

(** A row restricted to, and completed on, the labels [cs]. *)
Definition reindex (cs : list string) (r : gmap string cell) : gmap string cell :=
  foldr (λ c m, <[c := r !!! c]> m) ∅ cs.

(** [df[[c1, ..., cn]]] *)
Definition select (cs : list string) (df : DataFrame) : result DataFrame :=
  if forallb (λ c, has_col c df) cs
  then Ok {| columns := cs; rows := map (reindex cs) (rows df) |}
  else Raise KeyError.

(** [pd.DataFrame(columns=cs)] *)
Definition empty_frame (cs : list string) : DataFrame :=
  {| columns := cs; rows := [] |}.

(** [pd.DataFrame({'Metric': [...], 'Value': [...]})] *)
Definition metric_table (ms : list (string * Q)) : DataFrame :=
  {| columns := ["Metric"; "Value"];
     rows := map (λ mv, {[ "Metric" := Text mv.1; "Value" := Num mv.2 ]}) ms |}.

(** ** Python dictionaries kept in insertion order *)

Fixpoint dict_get {V} (k : string) (d : list (string * V)) : option V :=
  match d with
  | [] => None
  | (k', v) :: d' => if String.eqb k k' then Some v else dict_get k d'
  end.

Fixpoint dict_set {V} (k : string) (v : V) (d : list (string * V))
  : list (string * V) :=
  match d with
  | [] => [(k, v)]
  | (k', v') :: d' =>
      if String.eqb k k' then (k, v) :: d' else (k', v') :: dict_set k v d'
  end.

Definition dict_keys {V} (d : list (string * V)) : list string := map fst d.

(** ** Constants *)

Definition MAIN_SHEET := "Main Data".
Definition CUSTOMER_SHEET := "Customer Summary".
Definition PURCHASE_SHEET := "Purchase Summary".
Definition DAILY_SHEET := "Daily Summary".

Definition MAIN_COLUMNS : list string :=
  ["Date"; "Customer"; "Deposit Amount"; "Rate"; "Total Amount";
   "Amount Paid"; "Outstanding"; "Status"].
Definition CUSTOMER_COLUMNS : list string :=
  ["Customer"; "Total Deposit"; "Total Paid"; "Outstanding"; "Status"].
Definition NUMERIC_COLUMNS : list string :=
  ["Deposit Amount"; "Rate"; "Total Amount"; "Amount Paid"; "Outstanding"].

(** ** Status *)

Inductive status := Paid | NotPaid.

Definition status_label (s : status) : string :=
  match s with Paid => "Paid" | NotPaid => "Not Paid" end.

(** [lambda x: 'Paid' if x <= 0 else 'Not Paid'] *)
Definition status_of (x : Q) : status :=
  if Qle_bool x 0 then Paid else NotPaid.

Definition status_cell (c : cell) : cell :=
  Text (status_label (status_of (cell_num c))).

(** ** The order of dates *)

Definition date_leb (a b : date) : bool :=
  if (year a <? year b)%Z then true
  else if (year b <? year a)%Z then false
  else if (month a <? month b)%Z then true
  else if (month b <? month a)%Z then false
  else (day a <=? day b)%Z.

Definition _empty_frames : list (string * DataFrame) :=
  [(MAIN_SHEET, empty_frame MAIN_COLUMNS);
   (CUSTOMER_SHEET, empty_frame CUSTOMER_COLUMNS);
   (PURCHASE_SHEET, empty_frame ["Metric"; "Value"]);
   (DAILY_SHEET, empty_frame ["Metric"; "Value"])].

(** ** Grouping *)

(** Two numbers are the same group key when they are equal as numbers. *)
Definition key_of (c : cell) : cell :=
  match c with Num x => Num (Qred x) | _ => c end.

(** The order in which [groupby] lists the group keys: by value within one
    kind of cell, text by code point; numbers and dates before text; the
    missing bucket last.  Numbers and dates cannot be compared with each
    other: on a key column that holds both, pandas raises [TypeError], which
    this model does not follow (it lists the numbers first).  No property
    below depends on the order. *)
Definition key_leb (a b : cell) : bool :=
  match a, b with
  | Num x, Num y => Qle_bool x y
  | Day d, Day e => date_leb d e
  | Text s, Text t => String.leb s t
  | NaN, NaN => true
  | NaN, _ => false
  | _, NaN => true
  | Text _, _ => false
  | _, Text _ => true
  | Num _, Day _ => true
  | Day _, Num _ => false
  end.

Definition group_keys (key : string) (df : DataFrame) : list cell :=
  merge_sort (λ a b, Is_true (key_leb a b))
    (remove_dups (map (λ r, key_of (r !!! key)) (rows df))).

Definition group_rows (key : string) (k : cell) (df : DataFrame)
  : list (gmap string cell) :=
  filter (λ r, key_of (r !!! key) = k) (rows df).

(** [df.groupby(key, dropna=False).agg({c: 'sum', ...}).reset_index()] *)
Definition groupby_sum (pd : pandas) (key : string) (aggs : list string)
    (df : DataFrame) : result DataFrame :=
  if negb (has_col key df) then Raise KeyError
  else if negb (forallb (λ c, has_col c df) aggs) then Raise KeyError
  else Ok {|
    columns := key :: aggs;
    rows := map (λ k,
        <[key := k]>
          (foldr (λ c m,
             <[c := Num (sum_group pd (map (λ r, r !!! c) (group_rows key k df)))]> m)
             ∅ aggs))
      (group_keys key df) |}.

(** [df.rename(columns={old: new})] for one label *)
Definition rename_row (old new : string) (r : gmap string cell)
  : gmap string cell :=
  match r !! old with
  | Some v => <[new := v]> (delete old r)
  | None => r
  end.

Definition rename (old new : string) (df : DataFrame) : DataFrame :=
  {| columns := map (λ c, if String.eqb c old then new else c) (columns df);
     rows := map (rename_row old new) (rows df) |}.

(** Python truthiness of a number, and float division. *)
Definition truthy (x : Q) : bool := negb (Qeq_bool x 0).

Definition py_div (a b : Q) : result Q :=
  if Qeq_bool b 0 then Raise ZeroDivisionError else Ok (a / b).

Section Engine.

Variable pd : pandas.

(** [pd.to_datetime(_, errors='coerce').dt.date] on one cell of the column
    [col] *)
Definition to_date (col : list cell) (c : cell) : cell :=
  let parsed :=
    match c with
    | Day d => Some d
    | Text s => parse_datetime pd col s
    | Num x => epoch_date pd col x
    | NaN => None
    end in
  match parsed with
  | Some d => if timestamp_range pd d then Day d else NaN
  | None => NaN
  end.

(** [pd.to_numeric(_, errors='coerce')] on one cell *)
Definition to_numeric (c : cell) : option Q :=
  match c with
  | Num x => Some x
  | Text s => parse_number pd s
  | Day d => date_number pd d
  | NaN => None
  end.

(** [.fillna(0.0)] *)
Definition fillna0 (o : option Q) : cell := Num (default 0 o).

Definition coerce_numeric (df : DataFrame) (c : string) : DataFrame :=
  if has_col c df then assign c (λ r, fillna0 (to_numeric (r !!! c))) df
  else df.

Definition _sanitize_types (df : DataFrame) : DataFrame :=
  if df_empty df then df
  else
    let df1 :=
      if has_col "Date" df
      then assign "Date"
             (λ r, to_date (map (λ r, r !!! "Date") (rows df)) (r !!! "Date")) df
      else df in
    let df2 := foldl coerce_numeric df1 NUMERIC_COLUMNS in
    if has_col "Outstanding" df2
    then assign "Status" (λ r, status_cell (r !!! "Outstanding")) df2
    else df2.

Definition customer_summary (main : DataFrame) : result DataFrame :=
  grp ← groupby_sum pd "Customer"
          ["Deposit Amount"; "Amount Paid"; "Outstanding"; "Total Amount"] main;
  let grp := rename "Amount Paid" "Total Paid"
               (rename "Deposit Amount" "Total Deposit" grp) in
  let grp := assign "Status" (λ r, status_cell (r !!! "Outstanding")) grp in
  select CUSTOMER_COLUMNS grp.

Definition share (part total : Q) : result Q :=
  if truthy total then q ← py_div part total; Ok (q * 100) else Ok 0.

Definition _recompute_from_main (main_df : DataFrame) (expense other_expense : Q)
  : result (list (string * DataFrame)) :=
  let main := _sanitize_types main_df in
  '(cust, paid_total, outstanding_total, total_amount_sum) ←
    (if df_empty main then
       Ok (empty_frame CUSTOMER_COLUMNS, 0, 0, 0)
     else
       cust ← customer_summary main;
       paid ← column "Amount Paid" main;
       outstanding ← column "Outstanding" main;
       total ← column "Total Amount" main;
       Ok (cust, sum_cells pd paid, sum_cells pd outstanding,
           sum_cells pd total));
  paid_share ← share paid_total total_amount_sum;
  outstanding_share ← share outstanding_total total_amount_sum;
  let purchase := metric_table
    [("Total Amount (Σ deposit*rate)", total_amount_sum);
     ("Total Paid", paid_total);
     ("Total Outstanding", outstanding_total);
     ("Paid Share (%)", paid_share);
     ("Outstanding Share (%)", outstanding_share)] in
  let profit := total_amount_sum - paid_total - expense - other_expense in
  let daily := metric_table
    [("Expense", expense);
     ("Other Expense", other_expense);
     ("Sum of Total Amount", total_amount_sum);
     ("Total Paid", paid_total);
     ("Profit", profit)] in
  Ok [(MAIN_SHEET, main); (CUSTOMER_SHEET, cust);
      (PURCHASE_SHEET, purchase); (DAILY_SHEET, daily)].

End Engine.

(** ** Workbook files *)

Definition SHEETS : list string :=
  [MAIN_SHEET; CUSTOMER_SHEET; PURCHASE_SHEET; DAILY_SHEET].

Section Workbook.

(** The xlsx codec: [pd.read_excel(file, sheet_name=None)], which gives the
    sheets of a readable workbook and raises otherwise ([None]), and the
    writer behind [pd.ExcelWriter] / [DataFrame.to_excel(index=False)]. *)
Variable file : Type.
Variable read_excel : file → option (list (string * DataFrame)).
Variable write_excel : list (string * DataFrame) → file.

Definition _load_workbook (f : file) : list (string * DataFrame) :=
  match read_excel f with
  | Some book =>
      foldl (λ frames sheet,
               match dict_get sheet book with
               | Some df => dict_set sheet df frames
               | None => frames
               end)
            _empty_frames SHEETS
  | None => _empty_frames
  end.

(** The table handed to [to_excel] for one entry of [frames]. *)
Definition export_sheet (name : string) (df : DataFrame) : result DataFrame :=
  if String.eqb name MAIN_SHEET && negb (df_empty df)
  then select MAIN_COLUMNS df
  else Ok df.

Fixpoint export_sheets (frames : list (string * DataFrame))
  : result (list (string * DataFrame)) :=
  match frames with
  | [] => Ok []
  | (name, df) :: rest =>
      df' ← export_sheet name df;
      rest' ← export_sheets rest;
      Ok ((name, df') :: rest')
  end.

Definition _to_excel_bytes (frames : list (string * DataFrame)) : result file :=
  sheets ← export_sheets frames;
  Ok (write_excel sheets).

End Workbook.

Arguments _load_workbook {file} read_excel f.
Arguments _to_excel_bytes {file} write_excel frames.

(** ** The entry form *)

(** Strings are Python strs in UTF-8.  [str.strip()] removes the white space
    of Unicode from both ends: the code points 9 to 13, 28 to 32, U+0085,
    U+00A0, U+1680, U+2000 to U+200A, U+2028, U+2029, U+202F, U+205F and
    U+3000.  In UTF-8 these are one byte, or the two or three bytes below. *)
Definition space1 (a : Ascii.ascii) : bool :=
  let n := Ascii.nat_of_ascii a in
  ((9 <=? n) && (n <=? 13) || (28 <=? n) && (n <=? 32))%nat.

Definition space2 (a b : Ascii.ascii) : bool :=
  let m := Ascii.nat_of_ascii a in
  let n := Ascii.nat_of_ascii b in
  ((m =? 194) && ((n =? 133) || (n =? 160)))%nat.

Definition space3 (a b c : Ascii.ascii) : bool :=
  let l := Ascii.nat_of_ascii a in
  let m := Ascii.nat_of_ascii b in
  let n := Ascii.nat_of_ascii c in
  ((l =? 225) && (m =? 154) && (n =? 128)
   || (l =? 226) && (m =? 128)
      && ((128 <=? n) && (n <=? 138) || (n =? 168) || (n =? 169) || (n =? 175))
   || (l =? 226) && (m =? 129) && (n =? 159)
   || (l =? 227) && (m =? 128) && (n =? 128))%nat.

(** The string is one white space character. *)
Definition is_space (w : string) : bool :=
  match w with
  | String a EmptyString => space1 a
  | String a (String b EmptyString) => space2 a b
  | String a (String b (String c EmptyString)) => space3 a b c
  | _ => false
  end.

Fixpoint lstrip (s : string) : string :=
  match s with
  | EmptyString => EmptyString
  | String a s1 =>
      if space1 a then lstrip s1
      else
        match s1 with
        | EmptyString => s
        | String b s2 =>
            if space2 a b then lstrip s2
            else
              match s2 with
              | EmptyString => s
              | String c s3 => if space3 a b c then lstrip s3 else s
              end
        end
  end.

(** From the right: what is left of the tail, with the first byte in front,
    unless that is one white space character. *)
Fixpoint rstrip (s : string) : string :=
  match s with
  | EmptyString => EmptyString
  | String a s' =>
      let t := String a (rstrip s') in
      if is_space t then EmptyString else t
  end.

Definition strip (s : string) : string := rstrip (lstrip s).

(** The string consists of white space characters only. *)
Fixpoint whitespace_only (s : string) : bool :=
  match s with
  | EmptyString => true
  | String a s1 =>
      if space1 a then whitespace_only s1
      else
        match s1 with
        | EmptyString => false
        | String b s2 =>
            if space2 a b then whitespace_only s2
            else
              match s2 with
              | EmptyString => false
              | String c s3 => space3 a b c && whitespace_only s3
              end
        end
  end.

(** [max(a, b)] of Python: the first argument unless the second is greater. *)
Definition py_max (a b : Q) : Q := if Qle_bool b a then a else b.

Definition Qgt_bool (a b : Q) : bool := negb (Qle_bool a b).

(** [pd.concat([a, b], ignore_index=True)] *)
Definition concat (a b : DataFrame) : DataFrame :=
  let cols := columns a ++ filter (λ c, c ∉ columns a) (columns b) in
  {| columns := cols; rows := map (reindex cols) (rows a ++ rows b) |}.

(** What the form hands to the submit handler.  The customer is the text of
    the name box or the name selected in the dropdown; a selected customer
    that is not a text (a number read from a workbook) makes
    [customer.strip()] raise [AttributeError] and is outside the model. *)
Record entry := Entry {
  entry_date : date;
  customer : string;
  deposit : Q;
  rate : Q;
  amount_paid : Q
}.

(** The live preview: total amount, outstanding and status as displayed. *)
Definition preview_total (e : entry) : Q := deposit e * rate e.

Definition preview_outstanding (e : entry) : Q :=
  py_max (preview_total e - amount_paid e) 0.

Definition preview_status (e : entry) : string :=
  if Qle_bool (preview_outstanding e) 0 && Qgt_bool (preview_total e) 0
  then "Paid"
  else if Qgt_bool (preview_total e) 0 then "Not Paid" else "-".

(** The dictionary of the new row, and the one-row table built from it on
    submit. *)
Definition new_cells (e : entry) : gmap string cell :=
  let total_amount := deposit e * rate e in
  {[ "Date" := Day (entry_date e);
     "Customer" := Text (strip (customer e));
     "Deposit Amount" := Num (deposit e);
     "Rate" := Num (rate e);
     "Total Amount" := Num total_amount;
     "Amount Paid" := Num (amount_paid e);
     "Outstanding" := Num (total_amount - amount_paid e);
     "Status" := Text (if Qle_bool (total_amount - amount_paid e) 0
                       then "Paid" else "Not Paid") ]}.

Definition new_row (e : entry) : DataFrame :=
  {| columns := MAIN_COLUMNS; rows := [new_cells e] |}.

Inductive outcome :=
| Rejected (message : string)
| Added (message : string).

Section Session.

Variable pd : pandas.

(** The submit handler on the frames of the session: the outcome shown and
    the frames the session holds afterwards. *)
Definition submit (frames : list (string * DataFrame))
    (expense other_expense : Q) (e : entry)
  : result (outcome * list (string * DataFrame)) :=
  match dict_get MAIN_SHEET frames with
  | None => Raise KeyError
  | Some stored =>
      let main_df := _sanitize_types pd stored in
      if String.eqb (customer e) "" || String.eqb (strip (customer e)) ""
      then Ok (Rejected "Please enter a customer name.", frames)
      else
        let updated_main := concat main_df (new_row e) in
        frames' ← _recompute_from_main pd
                    updated_main expense other_expense;
        Ok (Added "Entry added and summaries updated.", frames')
  end.

End Session.

(** ** Row-level views of the normalizer and of the customer summary

    The operations above act on whole tables.  The definitions below say what
    they do to one row; the lemmas of the next part show that the table
    functions are these row functions mapped over the rows. *)

Definition upd (b : bool) (c : string) (f : cell → cell) (r : gmap string cell)
  : gmap string cell :=
  if b then <[c := f (r !!! c)]> r else r.

Definition set_status (b : bool) (r : gmap string cell) : gmap string cell :=
  if b then <["Status" := status_cell (r !!! "Outstanding")]> r else r.

Definition has_in (cols : list string) (c : string) : bool :=
  bool_decide (c ∈ cols).

Definition sanitized_columns (cols : list string) : list string :=
  if bool_decide ("Outstanding" ∈ cols) && negb (bool_decide ("Status" ∈ cols))
  then cols ++ ["Status"] else cols.

Definition REQUIRED_COLUMNS : list string :=
  ["Customer"; "Deposit Amount"; "Amount Paid"; "Outstanding"; "Total Amount"].

(** The tables on which [_recompute_from_main] does not raise. *)
Definition usable (df : DataFrame) : bool :=
  df_empty df || forallb (λ c, has_col c df) REQUIRED_COLUMNS.

(** The sum of a column: 0 for a table without rows and for a column the
    table does not have. *)
Definition col_total (pd : pandas) (c : string) (df : DataFrame) : Q :=
  if df_empty df then 0
  else match column c df with Ok l => sum_cells pd l | Raise _ => 0 end.

(** The value of a metric of a summary table, as the dashboard reads it:
    [df.loc[df['Metric'] == m, 'Value'].iloc[0]]. *)
Definition metric_value (m : string) (df : DataFrame) : option cell :=
  (λ r : gmap string cell, r !!! "Value")
    <$> head (filter (λ r : gmap string cell, r !!! "Metric" = Text m) (rows df)).


Section RowViews.

Variable pd : pandas.

Definition coerced (c : cell) : cell := fillna0 (to_numeric pd c).

Definition sanitize_row (dates : list cell) (has : string → bool)
    (r : gmap string cell) : gmap string cell :=
  set_status (has "Outstanding")
    (upd (has "Outstanding") "Outstanding" coerced
    (upd (has "Amount Paid") "Amount Paid" coerced
    (upd (has "Total Amount") "Total Amount" coerced
    (upd (has "Rate") "Rate" coerced
    (upd (has "Deposit Amount") "Deposit Amount" coerced
    (upd (has "Date") "Date" (to_date pd dates) r)))))).

End RowViews.

(** The row of the customer summary for the group [k] of a ledger. *)
Definition group_total (pd : pandas) (c : string) (k : cell) (main : DataFrame)
  : Q :=
  sum_group pd
    (map (λ r : gmap string cell, r !!! c) (group_rows "Customer" k main)).

Definition customer_row (pd : pandas) (main : DataFrame) (k : cell)
  : gmap string cell :=
  {[ "Customer" := k;
     "Total Deposit" := Num (group_total pd "Deposit Amount" k main);
     "Total Paid" := Num (group_total pd "Amount Paid" k main);
     "Outstanding" := Num (group_total pd "Outstanding" k main);
     "Status" := status_cell (Num (group_total pd "Outstanding" k main)) ]}.

Definition grouped_row (pd : pandas) (main : DataFrame) (k : cell)
  : gmap string cell :=
  {[ "Customer" := k;
     "Deposit Amount" := Num (group_total pd "Deposit Amount" k main);
     "Amount Paid" := Num (group_total pd "Amount Paid" k main);
     "Outstanding" := Num (group_total pd "Outstanding" k main);
     "Total Amount" := Num (group_total pd "Total Amount" k main) ]}.

(** What renaming, the status column and the final selection do to one row of
    the grouped table. *)
Definition summary_row (r : gmap string cell) : gmap string cell :=
  let r' := rename_row "Amount Paid" "Total Paid"
              (rename_row "Deposit Amount" "Total Deposit" r) in
  reindex CUSTOMER_COLUMNS (<["Status" := status_cell (r' !!! "Outstanding")]> r').

Definition customer_table (pd : pandas) (main : DataFrame) : DataFrame :=
  if df_empty main then empty_frame CUSTOMER_COLUMNS
  else Frame CUSTOMER_COLUMNS
         (map (customer_row pd main) (group_keys "Customer" main)).

(** The share shown in the purchase summary. *)
Definition share_value (part total : Q) : Q :=
  if Qeq_bool total 0 then 0 else part / total * 100.

Definition purchase_table (pd : pandas) (main : DataFrame) : DataFrame :=
  let total := col_total pd "Total Amount" main in
  let paid := col_total pd "Amount Paid" main in
  let outstanding := col_total pd "Outstanding" main in
  metric_table
    [("Total Amount (Σ deposit*rate)", total);
     ("Total Paid", paid);
     ("Total Outstanding", outstanding);
     ("Paid Share (%)", share_value paid total);
     ("Outstanding Share (%)", share_value outstanding total)].

Definition daily_table (pd : pandas) (main : DataFrame)
    (expense other_expense : Q) : DataFrame :=
  let total := col_total pd "Total Amount" main in
  let paid := col_total pd "Amount Paid" main in
  metric_table
    [("Expense", expense);
     ("Other Expense", other_expense);
     ("Sum of Total Amount", total);
     ("Total Paid", paid);
     ("Profit", total - paid - expense - other_expense)].

(** The four tables computed from a normalized ledger. *)
Definition bundle (pd : pandas) (main : DataFrame) (expense other_expense : Q)
  : list (string * DataFrame) :=
  [(MAIN_SHEET, main);
   (CUSTOMER_SHEET, customer_table pd main);
   (PURCHASE_SHEET, purchase_table pd main);
   (DAILY_SHEET, daily_table pd main expense other_expense)].

(** A row whose status agrees with its outstanding amount. *)
Definition status_consistent (r : gmap string cell) : Prop :=
  ∃ x, r !! "Outstanding" = Some (Num x)
       ∧ (r !! "Status" = Some (Text "Paid") ↔ x <= 0)
       ∧ (r !! "Status" = Some (Text "Not Paid") ↔ ¬ x <= 0).

(** ** Sums with and without rounding *)

(** The numbers of the column [c] in a list of rows. *)
Definition numbers (c : string) (rs : list (gmap string cell)) : list Q :=
  map (λ r : gmap string cell, cell_num (r !!! c)) rs.

(** The sum of the column [c] of a ledger as the engine takes it: the cells
    as the normalizer coerces them, added by [Series.sum]; 0 for a ledger
    without rows or without columns. *)
Definition ledger_sum (pd : pandas) (c : string) (L : DataFrame) : Q :=
  if df_empty L then 0
  else series_sum pd
         (map (λ r : gmap string cell, default 0 (to_numeric pd (r !!! c)))
            (rows L)).

(** A sum is exact on a list when it gives the sum of the numbers as
    rationals: nothing was rounded and nothing overflowed. *)
Definition exact (sum : list Q → Q) (l : list Q) : bool :=
  Qeq_bool (sum l) (qsum l).

(** The sums behind one column of the customer summary are exact: the sum of
    the column over the ledger, its sum within every customer, and the sum of
    these customer totals. *)
Definition sums_exact (pd : pandas) (c : string) (main : DataFrame) : bool :=
  exact (series_sum pd) (numbers c (rows main))
  && forallb (λ k, exact (group_sum pd)
                     (numbers c (group_rows "Customer" k main)))
       (group_keys "Customer" main)
  && exact (series_sum pd)
       (map (λ k, group_total pd c k main) (group_keys "Customer" main)).

(** ** The password gate

    [check_password()]: the flag [password_correct] of the session, created
    as [False] when it is absent; the text of the password box is compared
    with the configured secret, a match sets the flag and a mismatch shows
    "Incorrect password"; the flag is returned.  A secret that is not
    configured is outside the model. *)
Record gate := Gate { password_correct : bool; incorrect_shown : bool }.

Definition check_password (state : option bool) (password secret : string)
  : gate :=
  let flag := match state with Some b => b | None => false end in
  if String.eqb password secret then Gate true false else Gate flag true.

(** The flag of the session after one run of the script per text of the
    password box. *)
Fixpoint gate_after (state : option bool) (secret : string) (boxes : list string)
  : option bool :=
  match boxes with
  | [] => state
  | box :: rest =>
      gate_after (Some (password_correct (check_password state box secret)))
        secret rest
  end.

(** ** The start of a run and the sidebar *)

Section Script.

Variable pd : pandas.
Variable file : Type.
Variable read_excel : file → option (list (string * DataFrame)).
Variable write_excel : list (string * DataFrame) → file.

(** The frames of the session once a run has loaded its data: the uploaded
    workbook when there is one, the stored frames otherwise, and the empty
    frames for a new session without upload. *)
Definition init_frames (uploaded : option file)
    (session : option (list (string * DataFrame)))
  : list (string * DataFrame) :=
  let frames :=
    match uploaded with
    | Some f => _load_workbook read_excel f
    | None => _empty_frames
    end in
  match session with
  | None => frames
  | Some stored =>
      match uploaded with
      | Some _ => frames
      | None => stored
      end
  end.

(** The download prepared in the sidebar:
    [_to_excel_bytes(_recompute_from_main(main_df, expense, other_expense))]
    with [main_df = _sanitize_types(frames[MAIN_SHEET])]. *)
Definition sidebar_export (frames : list (string * DataFrame))
    (expense other_expense : Q) : result file :=
  match dict_get MAIN_SHEET frames with
  | None => Raise KeyError
  | Some stored =>
      recomputed ← _recompute_from_main pd (_sanitize_types pd stored)
                     expense other_expense;
      _to_excel_bytes write_excel recomputed
  end.

End Script.

Arguments init_frames {file} read_excel uploaded session.
Arguments sidebar_export pd {file} write_excel frames expense other_expense.

(** The value that pre-fills an expense box of the sidebar, before [float] is
    applied to it:
    [frames[DAILY]['Value'][i] if not frames[DAILY].empty and label in
    frames[DAILY]['Metric'].values else 0.0]; [None] is the literal 0.0. *)
Definition expense_default_source (i : nat) (label : string) (daily : DataFrame)
  : result (option cell) :=
  if negb (df_empty daily) then
    metric ← column "Metric" daily;
    if bool_decide (Text label ∈ metric) then
      value ← column "Value" daily;
      match value !! i with
      | Some c => Ok (Some c)
      | None => Raise KeyError
      end
    else Ok None
  else Ok None.

(** ** Runs of the submit handler

    One submission per run: the run loads its frames ([init_frames]) and the
    handler of the entry form works on them.  The expense boxes and the
    export of the sidebar and the dropdown of known customers, which the
    script evaluates in between and which can raise on an uploaded workbook,
    are not part of this function; the properties below are about sessions
    without upload, where the ledger holds what the form stored. *)
Record submission := Submission {
  sub_expense : Q;
  sub_other : Q;
  sub_entry : entry
}.

Section Runs.

Variable pd : pandas.
Variable file : Type.
Variable read_excel : file → option (list (string * DataFrame)).

Fixpoint handler_runs (uploaded : option file)
    (session : option (list (string * DataFrame))) (subs : list submission)
  : result (option (list (string * DataFrame))) :=
  match subs with
  | [] => Ok session
  | s :: rest =>
      '(_, frames) ← submit pd (init_frames read_excel uploaded session)
                       (sub_expense s) (sub_other s) (sub_entry s);
      handler_runs uploaded (Some frames) rest
  end.

End Runs.

Arguments handler_runs pd {file} read_excel uploaded session subs.

(** A ledger row whose amounts are numbers that fit together: total amount is
    deposit times rate and outstanding is total amount minus amount paid. *)
Definition balanced (r : gmap string cell) : Prop :=
  ∃ d rt t p o,
    r !! "Deposit Amount" = Some (Num d) ∧ r !! "Rate" = Some (Num rt)
    ∧ r !! "Total Amount" = Some (Num t) ∧ r !! "Amount Paid" = Some (Num p)
    ∧ r !! "Outstanding" = Some (Num o)
    ∧ t == d * rt ∧ o == t - p.

(** The ledgers on which the export of the sidebar does not raise. *)
Definition EXPORT_INPUT_COLUMNS : list string :=
  ["Date"; "Customer"; "Deposit Amount"; "Rate"; "Total Amount";
   "Amount Paid"; "Outstanding"].

Definition exportable (df : DataFrame) : bool :=
  df_empty df || forallb (λ c, has_col c df) EXPORT_INPUT_COLUMNS.

(** The number of ledger rows of a set of frames, and the number of
    submissions that name a customer. *)
Definition ledger_rows (frames : list (string * DataFrame)) : nat :=
  match dict_get MAIN_SHEET frames with
  | Some ledger => length (rows ledger)
  | None => 0%nat
  end.

Definition named (s : submission) : bool :=
  negb (whitespace_only (customer (sub_entry s))).

(** What holds of the frames of a session that only the entry form has
    filled: the four sheets, and a ledger with the eight columns in order
    whose rows are balanced and carry the status of their outstanding
    amount. *)
Definition form_built (frames : list (string * DataFrame)) : Prop :=
  dict_keys frames = SHEETS
  ∧ ∃ ledger,
      dict_get MAIN_SHEET frames = Some ledger
      ∧ columns ledger = MAIN_COLUMNS
      ∧ Forall balanced (rows ledger)
      ∧ Forall status_consistent (rows ledger).

(** What [pd.concat] and the normalizer make of a row of a ledger that has
    the eight columns. *)
Definition stored_as (pd : pandas) (dates : list cell) (r : gmap string cell)
  : gmap string cell :=
  sanitize_row pd dates (has_in MAIN_COLUMNS) (reindex MAIN_COLUMNS r).

(** ** Sample data *)

(** Conversions that recognise nothing, and a codec that keeps the sheets as
    they are: the simplest instances of the parameters. *)
Definition plain_pandas : pandas :=
  {| parse_datetime := λ _ _, None; epoch_date := λ _ _, None;
     timestamp_range := λ _, true;
     parse_number := λ _, None; date_number := λ _, None;
     series_sum := qsum; group_sum := qsum |}.
(** The sums of binary64 numbers.  [rnd64] rounds a rational to the nearest
    binary64 number, ties to even, below the overflow threshold.
    [Series.sum] adds the numbers from left to right, starting from 0, as
    numpy does for fewer than eight numbers (longer columns are added in
    blocks, which this instance does not follow); the sum of a group is the
    compensated sum of pandas' [group_sum]:
    [y = val - compensation; t = sumx + y; compensation = t - sumx - y;
    sumx = t]. *)
Definition rnd64 (x : Q) : Q :=
  let n := Z.abs (Qnum x) in
  let d := Z.pos (Qden x) in
  if (n =? 0)%Z then 0
  else
    let e0 := (Z.log2 n - Z.log2 d)%Z in
    let above :=
      if (0 <=? e0)%Z then (d * 2 ^ e0 <=? n)%Z else (d <=? n * 2 ^ (- e0))%Z in
    let e := if above then e0 else (e0 - 1)%Z in
    let q := Z.max (e - 52) (-1074) in
    let num := if (0 <=? q)%Z then n else (n * 2 ^ (- q))%Z in
    let den := if (0 <=? q)%Z then (d * 2 ^ q)%Z else d in
    let k := (num / den)%Z in
    let r := (num mod den)%Z in
    let k' :=
      if (2 * r <? den)%Z then k
      else if (den <? 2 * r)%Z then (k + 1)%Z
      else if Z.even k then k else (k + 1)%Z in
    let m := if (Qnum x <? 0)%Z then (- k')%Z else k' in
    if (0 <=? q)%Z then inject_Z (m * 2 ^ q)
    else Qred (m # Z.to_pos (2 ^ (- q))).

Definition sum64 (l : list Q) : Q :=
  fold_left (λ acc x, rnd64 (acc + x)) l 0.

Definition group_sum64 (l : list Q) : Q :=
  (fold_left (λ '(sumx, compensation) val,
                let y := rnd64 (val - compensation) in
                let t := rnd64 (sumx + y) in
                (t, rnd64 (rnd64 (t - sumx) - y)))
     l (0, 0)).1.

Definition binary64_pandas : pandas :=
  {| parse_datetime := λ _ _, None; epoch_date := λ _ _, None;
     timestamp_range := λ _, true;
     parse_number := λ _, None; date_number := λ _, None;
     series_sum := sum64; group_sum := group_sum64 |}.

Definition sheets_reader (f : list (string * DataFrame))
  : option (list (string * DataFrame)) := Some f.
Definition sheets_writer (sheets : list (string * DataFrame))
  : list (string * DataFrame) := sheets.

Definition alice_row : gmap string cell :=
  {[ "Date" := Day (Date 2024 1 1); "Customer" := Text "Alice";
     "Deposit Amount" := Num 1000; "Rate" := Num (11 # 10);
     "Total Amount" := Num 1100; "Amount Paid" := Num 500;
     "Outstanding" := Num 600; "Status" := Text "Paid" ]}.

Definition bob_row : gmap string cell :=
  {[ "Date" := Day (Date 2024 1 2); "Customer" := Text "Bob";
     "Deposit Amount" := Num 200; "Rate" := Num 2;
     "Total Amount" := Num 400; "Amount Paid" := Num 450;
     "Outstanding" := Num (-50); "Status" := Text "Not Paid" ]}.

(** A ledger row of one customer whose deposit, at rate 1 and with nothing
    paid, is the binary64 number nearest to [x]. *)
Definition deposit_row (name : string) (x : Q) : gmap string cell :=
  {[ "Date" := Day (Date 2024 1 1); "Customer" := Text name;
     "Deposit Amount" := Num (rnd64 x); "Rate" := Num 1;
     "Total Amount" := Num (rnd64 x); "Amount Paid" := Num 0;
     "Outstanding" := Num (rnd64 x); "Status" := Text "Not Paid" ]}.

(** Three deposits of one customer: 0.1, 0.2 and 0.3. *)
Definition drift_ledger : DataFrame :=
  Frame MAIN_COLUMNS
    [deposit_row "Alice" (1 # 10); deposit_row "Alice" (2 # 10);
     deposit_row "Alice" (3 # 10)].

(** Two customers, amounts that binary64 holds and divides exactly. *)
Definition carol_row : gmap string cell :=
  {[ "Date" := Day (Date 2024 2 1); "Customer" := Text "Carol";
     "Deposit Amount" := Num 1000; "Rate" := Num 1;
     "Total Amount" := Num 1000; "Amount Paid" := Num 250;
     "Outstanding" := Num 750; "Status" := Text "Not Paid" ]}.

Definition dave_row : gmap string cell :=
  {[ "Date" := Day (Date 2024 2 2); "Customer" := Text "Dave";
     "Deposit Amount" := Num 500; "Rate" := Num 2;
     "Total Amount" := Num 1000; "Amount Paid" := Num 250;
     "Outstanding" := Num 750; "Status" := Text "Not Paid" ]}.

Definition round_ledger : DataFrame :=
  Frame MAIN_COLUMNS [carol_row; dave_row; carol_row].

(** A ledger with stale statuses. *)
Definition sample_ledger : DataFrame := Frame MAIN_COLUMNS [alice_row; bob_row; alice_row].

(** The same cells under another column order. *)
Definition shuffled_ledger : DataFrame :=
  Frame ["Customer"; "Date"; "Deposit Amount"; "Rate"; "Total Amount";
         "Amount Paid"; "Outstanding"; "Status"] [alice_row].


(** A ledger sheet that holds only a header row, in that other order. *)
Definition headers_only : DataFrame :=
  Frame ["Customer"; "Date"; "Deposit Amount"; "Rate"; "Total Amount";
         "Amount Paid"; "Outstanding"; "Status"] [].

Definition alice_entry : entry :=
  Entry (Date 2024 1 1) "Alice" 1000 (11 # 10) 500.

(** The ideographic space U+3000 and the em space U+2003, in UTF-8. *)
Definition ideographic_space : string :=
  String (Ascii.ascii_of_nat 227) (String (Ascii.ascii_of_nat 128) (String (Ascii.ascii_of_nat 128) "")).
Definition em_space : string :=
  String (Ascii.ascii_of_nat 226) (String (Ascii.ascii_of_nat 128) (String (Ascii.ascii_of_nat 131) "")).

(** An entry that pays more than deposit times rate, and one whose name is
    a space, an ideographic space and an em space. *)
Definition overpaid_entry : entry :=
  Entry (Date 2024 1 2) " Bob " 200 2 450.

Definition blank_entry : entry :=
  Entry (Date 2024 1 3)
    (String.append " " (String.append ideographic_space em_space)) 100 1 0.

(** Readers of a result, for the evaluated scenarios. *)
Definition frames_after (r : result (outcome * list (string * DataFrame)))
  : list (string * DataFrame) :=
  match r with Ok (_, frames) => frames | Raise _ => [] end.

Definition cell_at (sheet : string) (i : nat) (c : string)
    (frames : list (string * DataFrame)) : option cell :=
  df ← dict_get sheet frames;
  r ← rows df !! i;
  r !! c.

Definition number_at (sheet : string) (i : nat) (c : string) (x : Q)
    (frames : list (string * DataFrame)) : bool :=
  match cell_at sheet i c frames with
  | Some (Num y) => Qeq_bool y x
  | _ => false
  end.

Definition no_status_ledger : DataFrame :=
  Frame ["Date"; "Customer"; "Deposit Amount"; "Rate"; "Total Amount";
         "Amount Paid"; "Outstanding"] [alice_row; bob_row].

Definition sample_workbook : list (string * DataFrame) :=
  [(MAIN_SHEET, shuffled_ledger)].

Definition alice_again : entry :=
  Entry (Date 2024 1 5)
    (String.append ideographic_space (String.append "Alice " em_space))
    300 1 300.

Definition alice_submission : submission := Submission 10 5 alice_entry.
Definition alice_again_submission : submission := Submission 0 0 alice_again.

(** The file of a successful export. *)
Definition written (r : result (list (string * DataFrame)))
  : list (string * DataFrame) :=
  match r with Ok f => f | Raise _ => [] end.

(** * Properties *)

(** ** Rows *)

Lemma upd_lookup_ne b c f r k : k ≠ c → upd b c f r !! k = r !! k.
Proof. intros Hk. unfold upd. destruct b; [|done]. by rewrite lookup_insert_ne. Qed.

Lemma upd_lookup_eq b c f r :
  upd b c f r !! c = if b then Some (f (r !!! c)) else r !! c.
Proof. unfold upd. destruct b; [|done]. by rewrite lookup_insert_eq. Qed.

Lemma upd_total_ne b c f r k : k ≠ c → upd b c f r !!! k = r !!! k.
Proof. intros Hk. by rewrite !lookup_total_alt, upd_lookup_ne. Qed.

Lemma upd_total_eq b c f r :
  upd b c f r !!! c = if b then f (r !!! c) else r !!! c.
Proof. rewrite lookup_total_alt, upd_lookup_eq. by destruct b. Qed.

Lemma set_status_lookup_ne b r k : k ≠ "Status" → set_status b r !! k = r !! k.
Proof.
  intros Hk. unfold set_status. destruct b; [|done]. by rewrite lookup_insert_ne.
Qed.

Lemma set_status_lookup_eq b r :
  set_status b r !! "Status" =
  if b then Some (status_cell (r !!! "Outstanding")) else r !! "Status".
Proof. unfold set_status. destruct b; [|done]. by rewrite lookup_insert_eq. Qed.

Lemma set_status_total_ne b r k : k ≠ "Status" → set_status b r !!! k = r !!! k.
Proof. intros Hk. by rewrite !lookup_total_alt, set_status_lookup_ne. Qed.

Lemma reindex_lookup cs r k :
  reindex cs r !! k = if bool_decide (k ∈ cs) then Some (r !!! k) else None.
Proof.
  induction cs as [|c cs IH]; simpl; [done|].
  destruct (decide (k = c)) as [->|Hne].
  - rewrite lookup_insert_eq. rewrite bool_decide_eq_true_2; [done|set_solver].
  - rewrite lookup_insert_ne by done. rewrite IH.
    destruct (decide (k ∈ cs)).
    + rewrite !bool_decide_eq_true_2; [done|set_solver..].
    + rewrite !bool_decide_eq_false_2; [done|set_solver..].
Qed.

Lemma reindex_total cs r k : k ∈ cs → reindex cs r !!! k = r !!! k.
Proof.
  intros Hk. rewrite (lookup_total_alt (reindex cs r)), reindex_lookup.
  by rewrite bool_decide_eq_true_2.
Qed.


Ltac strip_upd :=
  repeat first [ rewrite upd_total_ne by done | rewrite upd_lookup_ne by done ].

Lemma status_of_Paid x : status_of x = Paid ↔ x <= 0.
Proof.
  unfold status_of. destruct (Qle_bool x 0) eqn:E.
  - split; [intros _|done]. by apply Qle_bool_iff.
  - split; [done|]. intros H%Qle_bool_iff. congruence.
Qed.

Lemma status_of_NotPaid x : status_of x = NotPaid ↔ ¬ x <= 0.
Proof.
  rewrite <- status_of_Paid. destruct (status_of x); split; try done.
Qed.

Lemma status_label_inj s t : status_label s = status_label t → s = t.
Proof. by destruct s, t. Qed.

(** ** The normalizer *)

Section NormalizerFacts.

Variable pd : pandas.

Local Abbreviation to_date' := (to_date pd).
Local Abbreviation coerced' := (coerced pd).
Local Abbreviation sanitize_row' := (sanitize_row pd).
Local Abbreviation sanitize := (_sanitize_types pd).

Lemma to_date_idem col col' c :
  to_date' col' (to_date' col c) = to_date' col c.
Proof.
  unfold to_date. destruct c as [s|x|d|]; simpl; [| | |done].
  - destruct (parse_datetime pd col s) as [d|]; [|done].
    destruct (timestamp_range pd d) eqn:E; [|done]. by rewrite E.
  - destruct (epoch_date pd col x) as [d|]; [|done].
    destruct (timestamp_range pd d) eqn:E; [|done]. by rewrite E.
  - destruct (timestamp_range pd d) eqn:E; [|done]. by rewrite E.
Qed.

Lemma coerced_idem c : coerced' (coerced' c) = coerced' c.
Proof. done. Qed.

Lemma sanitize_row_Outstanding dates has r :
  has "Outstanding" = true →
  sanitize_row' dates has r !! "Outstanding" = Some (coerced' (r !!! "Outstanding")).
Proof.
  intros H. unfold sanitize_row. rewrite H.
  rewrite set_status_lookup_ne, upd_lookup_eq by done.
  by strip_upd.
Qed.

Lemma sanitize_row_Status dates has r :
  has "Outstanding" = true →
  sanitize_row' dates has r !! "Status"
  = Some (status_cell (coerced' (r !!! "Outstanding"))).
Proof.
  intros H. unfold sanitize_row. rewrite H.
  rewrite set_status_lookup_eq, upd_total_eq.
  by strip_upd.
Qed.

Lemma sanitize_row_numeric dates has r c :
  c ∈ REQUIRED_COLUMNS → c ≠ "Customer" → has c = true →
  sanitize_row' dates has r !! c = Some (coerced' (r !!! c)).
Proof.
  intros Hc Hne H. unfold sanitize_row, REQUIRED_COLUMNS in *.
  rewrite !elem_of_cons in Hc.
  destruct Hc as [->|[->|[->|[->|[->|Hc]]]]];
    [done| | | | |by apply elem_of_nil in Hc];
    rewrite set_status_lookup_ne by done;
    repeat first [ rewrite upd_lookup_ne by done
                 | rewrite upd_lookup_eq, H ];
    by strip_upd.
Qed.

Lemma sanitize_row_Customer dates has r :
  sanitize_row' dates has r !!! "Customer" = r !!! "Customer".
Proof.
  unfold sanitize_row.
  rewrite set_status_total_ne by done. by strip_upd.
Qed.

(** Normalizing a normalized row changes nothing, as long as the second
    pass sees the same columns among those it coerces. *)
Lemma sanitize_row_idem dates dates' has has' r :
  (∀ c, c ∈ "Date" :: NUMERIC_COLUMNS → has' c = has c) →
  sanitize_row' dates' has' (sanitize_row' dates has r)
  = sanitize_row' dates has r.
Proof.
  intros H.
  assert (H0 := H "Date"). assert (H1 := H "Deposit Amount").
  assert (H2 := H "Rate"). assert (H3 := H "Total Amount").
  assert (H4 := H "Amount Paid"). assert (H5 := H "Outstanding").
  unfold NUMERIC_COLUMNS in *.
  unfold sanitize_row at 1.
  rewrite H0, H1, H2, H3, H4, H5 by set_solver. clear H H0 H1 H2 H3 H4 H5.
  set (s := sanitize_row' dates has r).
  apply map_eq. intros k.
  destruct (decide (k = "Status")) as [->|?].
  { rewrite set_status_lookup_eq, upd_total_eq.
    strip_upd. subst s.
    destruct (has "Outstanding") eqn:E; [|done].
    rewrite sanitize_row_Status by done.
    by rewrite (lookup_total_alt _ "Outstanding"), sanitize_row_Outstanding. }
  rewrite set_status_lookup_ne by done.
  assert (∀ c f, (∀ v, f (f v) = f v) →
            (has c = true → s !! c = Some (f (r !!! c))) →
            (if has c then Some (f (s !!! c)) else s !! c) = s !! c) as Hfix.
  { intros c f Hf Hs. destruct (has c); [|done].
    rewrite lookup_total_alt, Hs by done. simpl. by rewrite Hf. }
  destruct (decide (k = "Outstanding")) as [->|?].
  { rewrite upd_lookup_eq. strip_upd.
    apply Hfix; [apply coerced_idem|]. apply sanitize_row_Outstanding. }
  rewrite upd_lookup_ne by done.
  destruct (decide (k = "Amount Paid")) as [->|?].
  { rewrite upd_lookup_eq. strip_upd.
    apply Hfix; [apply coerced_idem|].
    apply sanitize_row_numeric; [set_solver|done]. }
  rewrite upd_lookup_ne by done.
  destruct (decide (k = "Total Amount")) as [->|?].
  { rewrite upd_lookup_eq. strip_upd.
    apply Hfix; [apply coerced_idem|].
    apply sanitize_row_numeric; [set_solver|done]. }
  rewrite upd_lookup_ne by done.
  destruct (decide (k = "Rate")) as [->|?].
  { rewrite upd_lookup_eq. strip_upd.
    apply Hfix; [apply coerced_idem|]. intros E. subst s.
    unfold sanitize_row. rewrite set_status_lookup_ne by done.
    strip_upd. rewrite upd_lookup_eq, E.
    by strip_upd. }
  rewrite upd_lookup_ne by done.
  destruct (decide (k = "Deposit Amount")) as [->|?].
  { rewrite upd_lookup_eq. strip_upd.
    apply Hfix; [apply coerced_idem|].
    apply sanitize_row_numeric; [set_solver|done]. }
  rewrite upd_lookup_ne by done.
  destruct (decide (k = "Date")) as [->|?].
  { rewrite upd_lookup_eq. destruct (has "Date") eqn:E; [|done].
    assert (s !! "Date" = Some (to_date pd dates (r !!! "Date"))) as Hs.
    { subst s. unfold sanitize_row. rewrite set_status_lookup_ne by done.
      strip_upd. by rewrite upd_lookup_eq, E. }
    rewrite lookup_total_alt, Hs. simpl. by rewrite to_date_idem. }
  by rewrite upd_lookup_ne by done.
Qed.

End NormalizerFacts.

Lemma df_empty_false_iff df :
  df_empty df = false ↔ columns df ≠ [] ∧ rows df ≠ [].
Proof. unfold df_empty. destruct (columns df), (rows df); naive_solver. Qed.

Section NormalizerTables.

Variable pd : pandas.

Local Abbreviation coerced' := (coerced pd).
Local Abbreviation sanitize_row' := (sanitize_row pd).
Local Abbreviation sanitize := (_sanitize_types pd).
Local Abbreviation coerce_numeric' := (coerce_numeric pd).

Lemma coerce_numeric_view df c :
  coerce_numeric' df c
  = Frame (columns df) (map (upd (has_col c df) c coerced') (rows df)).
Proof.
  unfold coerce_numeric, upd. destruct (has_col c df) eqn:E.
  - unfold assign. by rewrite E.
  - destruct df as [cols rs]. simpl. by rewrite map_id.
Qed.

(** On a table that is not empty the normalizer works row by row. *)
Lemma sanitize_view df :
  df_empty df = false →
  sanitize df
  = Frame (sanitized_columns (columns df))
          (map (sanitize_row' (map (λ r : gmap string cell, r !!! "Date") (rows df))
                  (has_in (columns df))) (rows df)).
Proof.
  intros E. unfold _sanitize_types. rewrite E.
  set (df1 := if has_col "Date" df then _ else _).
  assert (df1 = Frame (columns df)
            (map (upd (has_col "Date" df) "Date"
                    (to_date pd (map (λ r, r !!! "Date") (rows df))))
               (rows df))) as ->.
  { subst df1. unfold upd. destruct (has_col "Date" df) eqn:E'.
    - unfold assign. by rewrite E'.
    - destruct df as [cols rs]. simpl. by rewrite map_id. }
  unfold NUMERIC_COLUMNS. simpl foldl.
  rewrite !coerce_numeric_view. simpl columns. simpl rows.
  unfold has_col at 1. simpl columns.
  unfold assign, has_col. simpl columns. simpl rows.
  rewrite !map_map. unfold sanitized_columns, sanitize_row, set_status, has_in.
  destruct (bool_decide ("Outstanding" ∈ columns df)) eqn:EO; simpl.
  - f_equal. by destruct (bool_decide ("Status" ∈ columns df)).
  - done.
Qed.

Lemma sanitize_empty df : df_empty df = true → sanitize df = df.
Proof. intros E. unfold _sanitize_types. by rewrite E. Qed.

Lemma sanitized_columns_elem cols c :
  c ≠ "Status" → c ∈ sanitized_columns cols ↔ c ∈ cols.
Proof.
  intros Hc. unfold sanitized_columns.
  destruct (_ && _); [|done]. rewrite elem_of_app, list_elem_of_singleton.
  naive_solver.
Qed.

Lemma sanitized_columns_subseteq cols c :
  c ∈ cols → c ∈ sanitized_columns cols.
Proof.
  intros Hc. unfold sanitized_columns.
  destruct (_ && _); [|done]. rewrite elem_of_app. by left.
Qed.

Lemma sanitized_columns_idem cols :
  sanitized_columns (sanitized_columns cols) = sanitized_columns cols.
Proof.
  unfold sanitized_columns at 2.
  destruct (bool_decide ("Outstanding" ∈ cols)) eqn:EO;
    destruct (bool_decide ("Status" ∈ cols)) eqn:ES; simpl;
    unfold sanitized_columns.
  - by rewrite EO, ES.
  - rewrite (bool_decide_eq_true_2 ("Status" ∈ cols ++ ["Status"])); [|set_solver].
    by rewrite andb_false_r, EO, ES.
  - by rewrite EO.
  - by rewrite EO.
Qed.

Lemma sanitize_df_empty df : df_empty (sanitize df) = df_empty df.
Proof.
  destruct (df_empty df) eqn:E.
  - by rewrite sanitize_empty.
  - rewrite sanitize_view by done. apply df_empty_false_iff in E as [Hc Hr].
    apply df_empty_false_iff. simpl. split.
    + intros Hn. destruct (columns df) as [|c cs] eqn:Ec; [done|].
      assert (c ∈ sanitized_columns (c :: cs)) as Hin
        by (apply sanitized_columns_subseteq; set_solver).
      rewrite Hn in Hin. by apply elem_of_nil in Hin.
    + by destruct (rows df).
Qed.

Lemma sanitize_rows_length df :
  length (rows (sanitize df)) = length (rows df).
Proof.
  destruct (df_empty df) eqn:E.
  - by rewrite sanitize_empty.
  - rewrite sanitize_view by done. simpl. by rewrite length_map.
Qed.

Lemma sanitize_has_col df c :
  has_col c df = true → has_col c (sanitize df) = true.
Proof.
  unfold has_col. intros H%bool_decide_eq_true. apply bool_decide_eq_true.
  destruct (df_empty df) eqn:E.
  - by rewrite sanitize_empty.
  - rewrite sanitize_view by done. simpl. by apply sanitized_columns_subseteq.
Qed.

Lemma sanitize_has_col_inv df c :
  c ≠ "Status" → has_col c (sanitize df) = has_col c df.
Proof.
  intros Hc. unfold has_col.
  destruct (df_empty df) eqn:E.
  - by rewrite sanitize_empty.
  - rewrite sanitize_view by done. simpl.
    apply bool_decide_ext. by apply sanitized_columns_elem.
Qed.

(** The normalizer is idempotent. *)
Lemma sanitize_idem df : sanitize (sanitize df) = sanitize df.
Proof.
  destruct (df_empty df) eqn:E.
  - by rewrite !(sanitize_empty df E).
  - assert (df_empty (sanitize df) = false) as E'
      by (by rewrite sanitize_df_empty).
    rewrite (sanitize_view (sanitize df) E').
    rewrite (sanitize_view df E). simpl.
    rewrite sanitized_columns_idem, map_map. f_equal.
    apply map_ext. intros r. apply sanitize_row_idem.
    intros c Hc. unfold has_in. apply bool_decide_ext.
    apply sanitized_columns_elem. unfold NUMERIC_COLUMNS in Hc.
    intros ->. set_solver.
Qed.

End NormalizerTables.

(** ** The aggregation engine *)

Lemma summary_pipeline rs :
  select CUSTOMER_COLUMNS
    (assign "Status" (λ r, status_cell (r !!! "Outstanding"))
       (rename "Amount Paid" "Total Paid"
          (rename "Deposit Amount" "Total Deposit"
             (Frame ["Customer"; "Deposit Amount"; "Amount Paid";
                     "Outstanding"; "Total Amount"] rs))))
  = Ok (Frame CUSTOMER_COLUMNS (map summary_row rs)).
Proof.
  unfold select, assign, rename. simpl columns. simpl rows.
  unfold has_col at 2. simpl columns.
  replace (bool_decide ("Status" ∈ _)) with false by (by vm_compute).
  simpl app.
  replace (forallb _ CUSTOMER_COLUMNS) with true by (by vm_compute).
  by rewrite !map_map.
Qed.

Lemma summary_row_grouped k d p o t :
  summary_row
    {[ "Customer" := k; "Deposit Amount" := Num d; "Amount Paid" := Num p;
       "Outstanding" := Num o; "Total Amount" := Num t ]}
  = {[ "Customer" := k; "Total Deposit" := Num d; "Total Paid" := Num p;
       "Outstanding" := Num o; "Status" := status_cell (Num o) ]}.
Proof. vm_compute. reflexivity. Qed.

Lemma groupby_sum_view pd main :
  groupby_sum pd "Customer"
    ["Deposit Amount"; "Amount Paid"; "Outstanding"; "Total Amount"] main
  = if forallb (λ c, has_col c main) REQUIRED_COLUMNS
    then Ok (Frame ["Customer"; "Deposit Amount"; "Amount Paid";
                    "Outstanding"; "Total Amount"]
               (map (grouped_row pd main) (group_keys "Customer" main)))
    else Raise KeyError.
Proof.
  unfold groupby_sum, REQUIRED_COLUMNS. simpl forallb.
  destruct (has_col "Customer" main); [|done]. simpl negb. cbv iota.
  rewrite andb_true_l.
  destruct (has_col "Deposit Amount" main && _); [|done].
  simpl negb. cbv iota. do 2 f_equal.
Qed.

Section EngineFacts.

Variable pd : pandas.

Local Abbreviation sanitize := (_sanitize_types pd).
Local Abbreviation recompute := (_recompute_from_main pd).

Lemma customer_summary_view main :
  customer_summary pd main
  = if forallb (λ c, has_col c main) REQUIRED_COLUMNS
    then Ok (Frame CUSTOMER_COLUMNS
               (map (customer_row pd main) (group_keys "Customer" main)))
    else Raise KeyError.
Proof.
  unfold customer_summary. rewrite groupby_sum_view.
  destruct (forallb _ REQUIRED_COLUMNS); [|done].
  unfold mbind, result_bind. rewrite summary_pipeline, map_map.
  rewrite (map_ext _ (customer_row pd main)); [done|].
  intros k. apply summary_row_grouped.
Qed.

Lemma share_view part total : share part total = Ok (share_value part total).
Proof.
  unfold share, share_value, truthy, py_div.
  by destruct (Qeq_bool total 0).
Qed.

Lemma col_total_empty c df : df_empty df = true → col_total pd c df = 0.
Proof.
  intros E. unfold col_total. by rewrite E.
Qed.

Lemma col_total_has c df :
  has_col c df = true → column c df = Ok (map (λ r, r !!! c) (rows df)).
Proof. intros H. unfold column. by rewrite H. Qed.

(** What the engine returns: the four tables of [bundle] on the normalized
    ledger, or [KeyError] when a ledger with rows lacks a column that the
    aggregation reads. *)
Lemma recompute_view L e oe :
  recompute L e oe
  = if usable L then Ok (bundle pd (sanitize L) e oe) else Raise KeyError.
Proof.
  unfold _recompute_from_main, usable.
  assert (forallb (λ c, has_col c (sanitize L)) REQUIRED_COLUMNS
          = forallb (λ c, has_col c L) REQUIRED_COLUMNS) as Hreq.
  { unfold REQUIRED_COLUMNS. simpl.
    pose proof (sanitize_has_col_inv pd L) as H.
    by rewrite (H "Customer"), (H "Deposit Amount"), (H "Amount Paid"),
      (H "Outstanding"), (H "Total Amount"). }
  rewrite <- Hreq, <- (sanitize_df_empty pd L).
  set (main := sanitize L). clearbody main. clear Hreq.
  destruct (df_empty main) eqn:E.
  - rewrite orb_true_l. unfold mbind, result_bind. cbv beta iota.
    rewrite !share_view. unfold bundle, purchase_table, daily_table, customer_table.
    rewrite E. by rewrite !col_total_empty by done.
  - rewrite orb_false_l, customer_summary_view.
    destruct (forallb _ REQUIRED_COLUMNS) eqn:R; [|by unfold mbind, result_bind].
    unfold REQUIRED_COLUMNS in R. simpl in R.
    rewrite !andb_true_iff in R. destruct R as (_ & _ & Hp & Ho & Ht & _).
    unfold mbind, result_bind. cbv beta iota.
    unfold bundle, purchase_table, daily_table, customer_table, col_total.
    rewrite E, !col_total_has by done. cbv beta iota.
    by rewrite !share_view.
Qed.

End EngineFacts.

(** ** Sums by group *)

Section GroupSums.

Context {A K : Type} `{EqDecision K}.
Variable key : A → K.
Variable val : A → Q.

Lemma qsum_add {B} (f g : B → Q) (l : list B) :
  qsum (map (λ x, f x + g x) l) == qsum (map f l) + qsum (map g l).
Proof.
  induction l as [|x l IH]; simpl; [ring|]. rewrite IH. ring.
Qed.

Lemma qsum_ext {B} (f g : B → Q) (l : list B) :
  (∀ x, x ∈ l → f x == g x) → qsum (map f l) == qsum (map g l).
Proof.
  induction l as [|x l IH]; intros H; simpl; [reflexivity|].
  rewrite (H x) by apply list_elem_of_here.
  rewrite IH; [reflexivity|]. intros y Hy. apply H. by apply list_elem_of_further.
Qed.

Lemma qsum_indicator_absent (k0 : K) (v : Q) (ks : list K) :
  k0 ∉ ks → qsum (map (λ k, if decide (k0 = k) then v else 0) ks) == 0.
Proof.
  induction ks as [|k ks IH]; intros Hk; simpl; [reflexivity|].
  apply not_elem_of_cons in Hk as [Hne Hk].
  destruct (decide (k0 = k)); [done|]. rewrite (IH Hk). ring.
Qed.

Lemma qsum_indicator (k0 : K) (v : Q) (ks : list K) :
  NoDup ks → k0 ∈ ks →
  qsum (map (λ k, if decide (k0 = k) then v else 0) ks) == v.
Proof.
  induction 1 as [|k ks Hnotin Hnd IH]; intros Hin.
  - by apply elem_of_nil in Hin.
  - simpl. destruct (decide (k0 = k)) as [->|Hne].
    + rewrite (qsum_indicator_absent k v ks Hnotin). ring.
    + apply elem_of_cons in Hin as [?|Hin]; [done|].
      rewrite (IH Hin). ring.
Qed.

(** The sums of the groups add up to the sum of all rows, for any list of
    distinct keys that covers the rows. *)
Lemma group_sums_total (rs : list A) (ks : list K) :
  NoDup ks → (∀ r, r ∈ rs → key r ∈ ks) →
  qsum (map (λ k, qsum (map val (filter (λ r, key r = k) rs))) ks)
  == qsum (map val rs).
Proof.
  intros Hnd. induction rs as [|r rs IH]; intros Hcover.
  - clear. simpl. induction ks as [|k ks IHk]; simpl; [reflexivity|].
    rewrite IHk. ring.
  - assert (qsum (map (λ k, qsum (map val (filter (λ r', key r' = k) (r :: rs)))) ks)
            == qsum (map (λ k, (if decide (key r = k) then val r else 0)
                               + qsum (map val (filter (λ r', key r' = k) rs))) ks))
      as ->.
    { apply qsum_ext. intros k _. rewrite filter_cons.
      destruct (decide (key r = k)); simpl; ring. }
    rewrite qsum_add, qsum_indicator, IH; simpl.
    + reflexivity.
    + intros r' Hr'. apply Hcover. by apply list_elem_of_further.
    + done.
    + apply Hcover. apply list_elem_of_here.
Qed.

End GroupSums.

(** ** The customer summary *)

Lemma group_keys_NoDup key df : NoDup (group_keys key df).
Proof.
  unfold group_keys. rewrite merge_sort_Permutation. apply NoDup_remove_dups.
Qed.

Lemma group_keys_cover key df r :
  r ∈ rows df → key_of (r !!! key) ∈ group_keys key df.
Proof.
  intros Hr. unfold group_keys.
  rewrite merge_sort_Permutation, elem_of_remove_dups.
  apply list_elem_of_fmap. by exists r.
Qed.

Lemma customer_row_lookup pd main k :
  customer_row pd main k !! "Customer" = Some k
  ∧ customer_row pd main k !! "Total Deposit"
    = Some (Num (group_total pd "Deposit Amount" k main))
  ∧ customer_row pd main k !! "Total Paid"
    = Some (Num (group_total pd "Amount Paid" k main))
  ∧ customer_row pd main k !! "Outstanding"
    = Some (Num (group_total pd "Outstanding" k main))
  ∧ customer_row pd main k !! "Status"
    = Some (status_cell (Num (group_total pd "Outstanding" k main))).
Proof.
  unfold customer_row.
  generalize (group_total pd "Deposit Amount" k main) as d.
  generalize (group_total pd "Amount Paid" k main) as p.
  generalize (group_total pd "Outstanding" k main) as o.
  intros o p d. repeat split; vm_compute; reflexivity.
Qed.

Lemma group_total_filter pd c k main :
  group_total pd c k main
  = group_sum pd (numbers c (group_rows "Customer" k main)).
Proof. unfold group_total, sum_group, numbers. by rewrite map_map. Qed.

Lemma col_total_view pd c df :
  df_empty df = false → has_col c df = true →
  col_total pd c df = series_sum pd (numbers c (rows df)).
Proof.
  intros E H. unfold col_total, column. rewrite E, H. unfold sum_cells, numbers.
  by rewrite map_map.
Qed.

Lemma exact_spec sum l : exact sum l = true ↔ sum l == qsum l.
Proof. apply Qeq_bool_iff. Qed.

Lemma customer_table_rows pd main :
  df_empty main = false →
  customer_table pd main
  = Frame CUSTOMER_COLUMNS (map (customer_row pd main) (group_keys "Customer" main))
  ∧ df_empty (customer_table pd main) = false.
Proof.
  intros E. unfold customer_table. rewrite E. split; [done|].
  destruct (rows main) as [|r rs] eqn:Hr.
  { unfold df_empty in E. rewrite Hr in E. by destruct (columns main). }
  assert (key_of (r !!! "Customer") ∈ group_keys "Customer" main) as Hin.
  { apply group_keys_cover. rewrite Hr. apply list_elem_of_here. }
  destruct (group_keys "Customer" main) as [|k ks]; [|done].
  by apply elem_of_nil in Hin.
Qed.

(** Where the sums are exact, the totals of the customers add up to the
    total of the ledger. *)
Lemma customer_total_reconciles pd main c c' :
  (c, c') ∈ [("Deposit Amount", "Total Deposit"); ("Amount Paid", "Total Paid");
             ("Outstanding", "Outstanding")] →
  df_empty main = false →
  has_col c main = true →
  sums_exact pd c main = true →
  col_total pd c' (customer_table pd main) == col_total pd c main.
Proof.
  intros Hc E Hhas Hex. unfold sums_exact in Hex.
  apply andb_true_iff in Hex as [Hex H3]. apply andb_true_iff in Hex as [H1 H2].
  apply exact_spec in H1, H3. rewrite forallb_forall in H2.
  rewrite (col_total_view pd c main E Hhas), H1. unfold numbers at 1.
  rewrite <- (group_sums_total (λ r : gmap string cell, key_of (r !!! "Customer"))
                (λ r : gmap string cell, cell_num (r !!! c))
                (rows main) (group_keys "Customer" main)
                (group_keys_NoDup _ _) (group_keys_cover _ _)).
  destruct (customer_table_rows pd main E) as [Hcust Ecust].
  assert (has_col c' (customer_table pd main) = true) as Hc'.
  { rewrite Hcust. rewrite !elem_of_cons in Hc.
    destruct Hc as [[= -> ->]|[[= -> ->]|[[= -> ->]|Hc]]];
      [by vm_compute..|by apply elem_of_nil in Hc]. }
  rewrite (col_total_view pd _ _ Ecust Hc'), Hcust. simpl rows.
  unfold numbers at 1. rewrite map_map.
  rewrite (map_ext _ (λ k, group_total pd c k main)).
  - rewrite H3. apply qsum_ext. intros k Hk. rewrite group_total_filter.
    apply list_elem_of_In in Hk. apply H2, exact_spec in Hk. exact Hk.
  - intros k. destruct (customer_row_lookup pd main k) as (_ & Hd & Hp & Ho & _).
    rewrite lookup_total_alt.
    rewrite !elem_of_cons in Hc.
    destruct Hc as [[= -> ->]|[[= -> ->]|[[= -> ->]|Hc]]];
      [by rewrite Hd|by rewrite Hp|by rewrite Ho|by apply elem_of_nil in Hc].
Qed.

(** ** The summary tables *)

Lemma purchase_metrics (t p o ps os : Q) :
  let purchase := metric_table
    [("Total Amount (Σ deposit*rate)", t); ("Total Paid", p);
     ("Total Outstanding", o); ("Paid Share (%)", ps);
     ("Outstanding Share (%)", os)] in
  metric_value "Total Amount (Σ deposit*rate)" purchase = Some (Num t)
  ∧ metric_value "Total Paid" purchase = Some (Num p)
  ∧ metric_value "Total Outstanding" purchase = Some (Num o)
  ∧ metric_value "Paid Share (%)" purchase = Some (Num ps)
  ∧ metric_value "Outstanding Share (%)" purchase = Some (Num os).
Proof. repeat split; vm_compute; reflexivity. Qed.

Lemma daily_metrics (e oe t p profit : Q) :
  let daily := metric_table
    [("Expense", e); ("Other Expense", oe); ("Sum of Total Amount", t);
     ("Total Paid", p); ("Profit", profit)] in
  metric_value "Expense" daily = Some (Num e)
  ∧ metric_value "Other Expense" daily = Some (Num oe)
  ∧ metric_value "Sum of Total Amount" daily = Some (Num t)
  ∧ metric_value "Total Paid" daily = Some (Num p)
  ∧ metric_value "Profit" daily = Some (Num profit).
Proof. repeat split; vm_compute; reflexivity. Qed.

Lemma share_value_nonzero part total :
  ¬ total == 0 → share_value part total = part / total * 100.
Proof.
  intros H. unfold share_value. destruct (Qeq_bool total 0) eqn:E; [|done].
  by apply Qeq_bool_iff in E.
Qed.

Lemma share_value_zero part total : total == 0 → share_value part total = 0.
Proof.
  intros H. unfold share_value. by rewrite (proj2 (Qeq_bool_iff total 0) H).
Qed.

Section EngineClaims.

Variable pd : pandas.

Local Abbreviation sanitize := (_sanitize_types pd).
Local Abbreviation recompute := (_recompute_from_main pd).

Lemma usable_has_col L c :
  usable L = true → df_empty L = false → c ∈ REQUIRED_COLUMNS →
  has_col c (sanitize L) = true.
Proof.
  unfold usable. intros U E Hc. rewrite E, orb_false_l in U.
  apply sanitize_has_col. rewrite forallb_forall in U.
  apply U. by apply list_elem_of_In.
Qed.

(** A ledger with rows that lacks a column read by the aggregation makes
    the engine raise [KeyError]; on every other ledger it returns. *)
Lemma recompute_raises L e oe :
  usable L = false → recompute L e oe = Raise KeyError.
Proof. intros U. by rewrite recompute_view, U. Qed.

(** The totals that the engine takes from the normalized ledger are the
    sums of the coerced cells of the ledger it was given. *)
Lemma ledger_sum_view L c :
  usable L = true →
  c ∈ ["Deposit Amount"; "Amount Paid"; "Outstanding"; "Total Amount"] →
  col_total pd c (sanitize L) = ledger_sum pd c L.
Proof.
  intros U Hc. unfold ledger_sum. destruct (df_empty L) eqn:E.
  { apply col_total_empty. by rewrite sanitize_df_empty. }
  assert (c ∈ REQUIRED_COLUMNS ∧ c ≠ "Customer") as [Hreq Hne].
  { unfold REQUIRED_COLUMNS. rewrite !elem_of_cons in Hc.
    destruct Hc as [->|[->|[->|[->|Hc]]]];
      [split; [set_solver|done]..|by apply elem_of_nil in Hc]. }
  assert (has_col c L = true) as Hhas.
  { unfold usable in U. rewrite E, orb_false_l, forallb_forall in U.
    apply U. by apply list_elem_of_In. }
  rewrite col_total_view;
    [|by rewrite sanitize_df_empty|by apply usable_has_col].
  rewrite sanitize_view by done. simpl rows. unfold numbers.
  rewrite map_map. f_equal. apply map_ext. intros r.
  by rewrite lookup_total_alt, (sanitize_row_numeric pd _ _ r c Hreq Hne Hhas).
Qed.

(** C1 (as corrected): the engine returns the normalized ledger and three
    summaries of it.  Where the sums behind a column of the customer summary
    are exact (no rounding, no overflow), the Total Deposit, Total Paid and
    Outstanding columns of the customer summary sum to the Deposit Amount,
    Amount Paid and Outstanding columns of the ledger; the Total Amount of
    the purchase summary is always the Sum of Total Amount of the daily
    summary, both being the sum of the ledger's Total Amount column. *)
Theorem customer_sums_reconcile L e oe :
  usable L = true →
  ∃ cust purchase daily,
    recompute L e oe
    = Ok [(MAIN_SHEET, sanitize L); (CUSTOMER_SHEET, cust);
          (PURCHASE_SHEET, purchase); (DAILY_SHEET, daily)]
    ∧ (sums_exact pd "Deposit Amount" (sanitize L) = true →
       col_total pd "Total Deposit" cust == ledger_sum pd "Deposit Amount" L)
    ∧ (sums_exact pd "Amount Paid" (sanitize L) = true →
       col_total pd "Total Paid" cust == ledger_sum pd "Amount Paid" L)
    ∧ (sums_exact pd "Outstanding" (sanitize L) = true →
       col_total pd "Outstanding" cust == ledger_sum pd "Outstanding" L)
    ∧ metric_value "Total Amount (Σ deposit*rate)" purchase
      = Some (Num (ledger_sum pd "Total Amount" L))
    ∧ metric_value "Sum of Total Amount" daily
      = Some (Num (ledger_sum pd "Total Amount" L)).
Proof.
  intros U. rewrite recompute_view, U. unfold bundle.
  eexists _, _, _. split; [reflexivity|].
  assert (∀ c c',
    (c, c') ∈ [("Deposit Amount", "Total Deposit"); ("Amount Paid", "Total Paid");
               ("Outstanding", "Outstanding")] →
    sums_exact pd c (sanitize L) = true →
    col_total pd c' (customer_table pd (sanitize L)) == ledger_sum pd c L) as H.
  { intros c c' Hc Hex.
    assert (c ∈ ["Deposit Amount"; "Amount Paid"; "Outstanding"; "Total Amount"])
      as Hin by set_solver.
    rewrite <- (ledger_sum_view L c U Hin).
    destruct (df_empty (sanitize L)) eqn:E.
    - unfold customer_table. rewrite E.
      rewrite (col_total_empty pd c _ E). by rewrite col_total_empty.
    - apply customer_total_reconciles; [done..| |done].
      rewrite sanitize_df_empty in E. apply usable_has_col; [done..|].
      unfold REQUIRED_COLUMNS. set_solver. }
  split; [apply H; set_solver|]. split; [apply H; set_solver|].
  split; [apply H; set_solver|].
  rewrite <- (ledger_sum_view L "Total Amount" U) by set_solver.
  unfold purchase_table, daily_table.
  split; [eapply proj1, purchase_metrics|].
  eapply proj1, proj2, proj2, daily_metrics.
Qed.

Lemma status_consistent_intro (r : gmap string cell) x :
  r !! "Outstanding" = Some (Num x) →
  r !! "Status" = Some (status_cell (Num x)) →
  status_consistent r.
Proof.
  intros Ho Hs. exists x. split; [done|]. rewrite Hs.
  unfold status_cell. simpl cell_num.
  rewrite <- status_of_NotPaid, <- status_of_Paid.
  split; (split; [intros [= H]; by apply status_label_inj|by intros ->]).
Qed.

Lemma has_Outstanding_empty df :
  has_col "Outstanding" df = true → df_empty df = true → rows df = [].
Proof.
  unfold has_col, df_empty. intros H%bool_decide_eq_true E.
  destruct (columns df); [by apply elem_of_nil in H|].
  by destruct (rows df).
Qed.

Lemma usable_sanitize L : usable (sanitize L) = usable L.
Proof.
  unfold usable, REQUIRED_COLUMNS. simpl forallb.
  pose proof (sanitize_has_col_inv pd L) as H.
  by rewrite sanitize_df_empty, (H "Customer"), (H "Deposit Amount"),
    (H "Amount Paid"), (H "Outstanding"), (H "Total Amount").
Qed.

(** C2: the normalizer sets the status of every row of a table that has an
    Outstanding column to Paid when the row's outstanding amount is at most
    0 and to Not Paid otherwise, whatever status the input held; hence in
    the output of recompute every ledger row and every customer-summary row
    has status Paid exactly when its outstanding amount is at most 0, the
    outstanding amount of a customer row being the sum over its group. *)
Theorem status_follows_outstanding :
  (∀ df, has_col "Outstanding" df = true →
     Forall2 (λ r r' : gmap string cell,
                let x := cell_num (coerced pd (r !!! "Outstanding")) in
                r' !! "Outstanding" = Some (Num x)
                ∧ r' !! "Status" = Some (Text (status_label (status_of x)))
                ∧ status_consistent r')
             (rows df) (rows (sanitize df)))
  ∧ (∀ L e oe, usable L = true →
     ∃ main cust purchase daily,
       recompute L e oe
       = Ok [(MAIN_SHEET, main); (CUSTOMER_SHEET, cust);
             (PURCHASE_SHEET, purchase); (DAILY_SHEET, daily)]
       ∧ (has_col "Outstanding" main = true →
          Forall status_consistent (rows main))
       ∧ Forall (λ r : gmap string cell,
                   status_consistent r
                   ∧ r !! "Outstanding"
                     = Some (Num (group_total pd "Outstanding" (r !!! "Customer") main)))
                (rows cust)).
Proof.
  assert (∀ df, has_col "Outstanding" df = true →
     Forall2 (λ r r' : gmap string cell,
                let x := cell_num (coerced pd (r !!! "Outstanding")) in
                r' !! "Outstanding" = Some (Num x)
                ∧ r' !! "Status" = Some (Text (status_label (status_of x)))
                ∧ status_consistent r')
             (rows df) (rows (sanitize df))) as Hrows.
  { intros df Hhas. destruct (df_empty df) eqn:E.
    - rewrite sanitize_empty by done.
      rewrite (has_Outstanding_empty df Hhas E). constructor.
    - rewrite sanitize_view by done. simpl rows.
      apply Forall2_fmap_r, Forall_Forall2_diag, Forall_forall.
      intros r _. simpl.
      assert (has_in (columns df) "Outstanding" = true) as Hin by done.
      pose proof (sanitize_row_Outstanding pd
                    (map (λ r : gmap string cell, r !!! "Date") (rows df))
                    _ r Hin) as Ho.
      pose proof (sanitize_row_Status pd
                    (map (λ r : gmap string cell, r !!! "Date") (rows df))
                    _ r Hin) as Hs.
      split; [done|]. split; [done|].
      by eapply status_consistent_intro. }
  split; [exact Hrows|].
  intros L e oe U. rewrite recompute_view, U. unfold bundle.
  eexists _, _, _, _. split; [reflexivity|]. split.
  - intros Hhas. rewrite sanitize_has_col_inv in Hhas by done.
    specialize (Hrows L Hhas).
    induction Hrows as [|r r' rs rs' (_ & _ & H) _ IH]; by constructor.
  - unfold customer_table. destruct (df_empty (sanitize L)); [constructor|].
    simpl rows. apply Forall_forall. intros r (k & -> & _)%list_elem_of_fmap.
    destruct (customer_row_lookup pd (sanitize L) k) as (Hk & _ & _ & Ho & Hs).
    split; [by eapply status_consistent_intro|].
    by rewrite lookup_total_alt, Hk.
Qed.

(** C3: recompute is idempotent: running it again on the ledger of its own
    output, with the same two expenses, gives the same four tables. *)
Theorem recompute_idempotent L e oe :
  usable L = true →
  ∃ T main,
    recompute L e oe = Ok T
    ∧ dict_get MAIN_SHEET T = Some main
    ∧ recompute main e oe = Ok T.
Proof.
  intros U. exists (bundle pd (sanitize L) e oe), (sanitize L).
  rewrite !recompute_view, usable_sanitize, U, sanitize_idem.
  repeat split; reflexivity.
Qed.

(** C4: the engine never divides by zero.  For the ledger it is given, the
    paid share and the outstanding share of the purchase summary are the sum
    of the ledger's Amount Paid column, and of its Outstanding column,
    divided by the sum of its Total Amount column, times 100, when that sum
    is not zero; both shares are 0 when it is zero, as for an empty
    ledger. *)
Theorem share_guard :
  (∀ L e oe, recompute L e oe ≠ Raise ZeroDivisionError)
  ∧ (∀ L e oe, usable L = true →
     ∃ cust purchase daily,
       recompute L e oe
       = Ok [(MAIN_SHEET, sanitize L); (CUSTOMER_SHEET, cust);
             (PURCHASE_SHEET, purchase); (DAILY_SHEET, daily)]
       ∧ let total := ledger_sum pd "Total Amount" L in
         let paid := ledger_sum pd "Amount Paid" L in
         let outstanding := ledger_sum pd "Outstanding" L in
         (¬ total == 0 →
          metric_value "Paid Share (%)" purchase
          = Some (Num (paid / total * 100))
          ∧ metric_value "Outstanding Share (%)" purchase
            = Some (Num (outstanding / total * 100)))
         ∧ (total == 0 →
            metric_value "Paid Share (%)" purchase = Some (Num 0)
            ∧ metric_value "Outstanding Share (%)" purchase = Some (Num 0))
         ∧ (df_empty L = true →
            metric_value "Paid Share (%)" purchase = Some (Num 0)
            ∧ metric_value "Outstanding Share (%)" purchase = Some (Num 0))).
Proof.
  split.
  { intros L e oe. rewrite recompute_view. by destruct (usable L). }
  intros L e oe U. rewrite recompute_view, U. unfold bundle.
  eexists _, _, _. split; [reflexivity|]. cbv zeta.
  unfold purchase_table.
  rewrite !(ledger_sum_view L _ U) by set_solver.
  set (total := ledger_sum pd "Total Amount" L).
  set (paid := ledger_sum pd "Amount Paid" L).
  set (outstanding := ledger_sum pd "Outstanding" L).
  destruct (purchase_metrics total paid outstanding
              (share_value paid total) (share_value outstanding total))
    as (_ & _ & _ & Hp & Ho).
  cbv zeta in Hp, Ho. rewrite Hp, Ho.
  assert (total == 0 →
          Some (Num (share_value paid total)) = Some (Num 0)
          ∧ Some (Num (share_value outstanding total)) = Some (Num 0)) as Hz.
  { intros Hz. by rewrite !share_value_zero. }
  split; [|split; [exact Hz|]].
  - intros Hnz. by rewrite !share_value_nonzero.
  - intros E. apply Hz. subst total. unfold ledger_sum. by rewrite E.
Qed.

(** C5: for the ledger it is given, the engine returns a daily summary that
    holds exactly the five metrics Expense, Other Expense, Sum of Total
    Amount, Total Paid and Profit, in this order; the two totals are the
    sums of the ledger's Total Amount and Amount Paid columns, and the
    profit is the total amount minus the total paid minus the expense minus
    the other expense. *)
Theorem daily_summary_metrics L e oe :
  usable L = true →
  ∃ cust purchase,
    let total := ledger_sum pd "Total Amount" L in
    let paid := ledger_sum pd "Amount Paid" L in
    recompute L e oe
    = Ok [(MAIN_SHEET, sanitize L); (CUSTOMER_SHEET, cust);
          (PURCHASE_SHEET, purchase);
          (DAILY_SHEET,
           Frame ["Metric"; "Value"]
             [ {[ "Metric" := Text "Expense"; "Value" := Num e ]};
               {[ "Metric" := Text "Other Expense"; "Value" := Num oe ]};
               {[ "Metric" := Text "Sum of Total Amount"; "Value" := Num total ]};
               {[ "Metric" := Text "Total Paid"; "Value" := Num paid ]};
               {[ "Metric" := Text "Profit";
                  "Value" := Num (total - paid - e - oe) ]} ])].
Proof.
  intros U. rewrite recompute_view, U. unfold bundle, daily_table. cbv zeta.
  rewrite !(ledger_sum_view L _ U) by set_solver.
  eexists _, _. reflexivity.
Qed.

End EngineClaims.

(** ** The workbook reader and writer *)

Lemma export_sheets_four a b c d :
  export_sheets [(MAIN_SHEET, a); (CUSTOMER_SHEET, b);
                 (PURCHASE_SHEET, c); (DAILY_SHEET, d)]
  = a' ← export_sheet MAIN_SHEET a;
    Ok [(MAIN_SHEET, a'); (CUSTOMER_SHEET, b);
        (PURCHASE_SHEET, c); (DAILY_SHEET, d)].
Proof.
  unfold export_sheets, export_sheet.
  replace (String.eqb CUSTOMER_SHEET MAIN_SHEET) with false by reflexivity.
  replace (String.eqb PURCHASE_SHEET MAIN_SHEET) with false by reflexivity.
  replace (String.eqb DAILY_SHEET MAIN_SHEET) with false by reflexivity.
  reflexivity.
Qed.

Lemma export_sheet_main df :
  export_sheet MAIN_SHEET df
  = if df_empty df then Ok df
    else if forallb (λ c, has_col c df) MAIN_COLUMNS
         then Ok (Frame MAIN_COLUMNS (map (reindex MAIN_COLUMNS) (rows df)))
         else Raise KeyError.
Proof.
  unfold export_sheet, select.
  replace (String.eqb MAIN_SHEET MAIN_SHEET) with true by reflexivity.
  by destruct (df_empty df).
Qed.


Section WorkbookClaims.

Variable file : Type.
Variable read_excel : file → option (list (string * DataFrame)).

(** What import returns, name by name: the table of the workbook, or the
    empty table of [_empty_frames] for a name the workbook lacks. *)
Lemma load_workbook_view (f : file) :
  _load_workbook read_excel f
  = map (λ entry : string * DataFrame,
           (entry.1, default entry.2 (read_excel f ≫= dict_get entry.1)))
        _empty_frames.
Proof.
  unfold _load_workbook. destruct (read_excel f) as [book|]; [|done].
  unfold SHEETS. simpl foldl. simpl map. simpl option_bind.
  by destruct (dict_get MAIN_SHEET book), (dict_get CUSTOMER_SHEET book),
    (dict_get PURCHASE_SHEET book), (dict_get DAILY_SHEET book).
Qed.

(** C6: import always returns exactly the four named tables, in their
    order: a table the file holds is taken from it; a table it lacks is the
    empty table of that name, without rows and with the eight ledger
    columns, the five customer columns, or Metric and Value; a file that
    cannot be read gives these four empty tables; no failure of the reader
    reaches the caller. *)
Theorem load_workbook_total (f : file) :
  _load_workbook read_excel f
  = [ ("Main Data",
       default
         (Frame ["Date"; "Customer"; "Deposit Amount"; "Rate"; "Total Amount";
                 "Amount Paid"; "Outstanding"; "Status"] [])
         (read_excel f ≫= dict_get "Main Data"));
      ("Customer Summary",
       default
         (Frame ["Customer"; "Total Deposit"; "Total Paid"; "Outstanding";
                 "Status"] [])
         (read_excel f ≫= dict_get "Customer Summary"));
      ("Purchase Summary",
       default (Frame ["Metric"; "Value"] [])
         (read_excel f ≫= dict_get "Purchase Summary"));
      ("Daily Summary",
       default (Frame ["Metric"; "Value"] [])
         (read_excel f ≫= dict_get "Daily Summary")) ]
  ∧ dict_keys (_load_workbook read_excel f) = SHEETS
  ∧ (read_excel f = None →
     _load_workbook read_excel f
     = [ ("Main Data",
          Frame ["Date"; "Customer"; "Deposit Amount"; "Rate"; "Total Amount";
                 "Amount Paid"; "Outstanding"; "Status"] []);
         ("Customer Summary",
          Frame ["Customer"; "Total Deposit"; "Total Paid"; "Outstanding";
                 "Status"] []);
         ("Purchase Summary", Frame ["Metric"; "Value"] []);
         ("Daily Summary", Frame ["Metric"; "Value"] []) ]).
Proof.
  rewrite load_workbook_view. split; [reflexivity|]. split; [reflexivity|].
  by intros ->.
Qed.

End WorkbookClaims.

Section ExportClaims.

Variable pd : pandas.
Variable file : Type.
Variable read_excel : file → option (list (string * DataFrame)).
Variable write_excel : list (string * DataFrame) → file.

Local Abbreviation sanitize := (_sanitize_types pd).
Local Abbreviation recompute := (_recompute_from_main pd).

Lemma to_excel_bytes_bundle main e oe :
  _to_excel_bytes write_excel (bundle pd main e oe)
  = a ← export_sheet MAIN_SHEET main;
    Ok (write_excel [(MAIN_SHEET, a);
                     (CUSTOMER_SHEET, customer_table pd main);
                     (PURCHASE_SHEET, purchase_table pd main);
                     (DAILY_SHEET, daily_table pd main e oe)]).
Proof.
  unfold _to_excel_bytes, bundle. rewrite export_sheets_four.
  by destruct (export_sheet MAIN_SHEET main).
Qed.

(** C8, as amended: an export writes the four named tables; a ledger that
    is not empty and has the eight ledger columns, in whatever order and
    among whatever other columns, is written with exactly these columns in
    the fixed order; an empty ledger is written with the columns it has;
    and a ledger with rows that lacks one of the eight columns makes the
    export raise. *)
Theorem export_ledger_order L e oe :
  usable L = true →
  ∃ T main,
    recompute L e oe = Ok T
    ∧ dict_keys T = SHEETS
    ∧ dict_get MAIN_SHEET T = Some main
    ∧ (df_empty main = false →
       forallb (λ c, has_col c main) MAIN_COLUMNS = true →
       ∃ sheets ledger,
         _to_excel_bytes write_excel T = Ok (write_excel sheets)
         ∧ dict_keys sheets = SHEETS
         ∧ dict_get MAIN_SHEET sheets = Some ledger
         ∧ columns ledger = MAIN_COLUMNS
         ∧ rows ledger = map (reindex MAIN_COLUMNS) (rows main))
    ∧ (df_empty main = true →
       _to_excel_bytes write_excel T = Ok (write_excel T))
    ∧ (df_empty main = false →
       forallb (λ c, has_col c main) MAIN_COLUMNS = false →
       _to_excel_bytes write_excel T = Raise KeyError).
Proof.
  intros U. exists (bundle pd (sanitize L) e oe), (sanitize L).
  rewrite recompute_view, U, to_excel_bytes_bundle, export_sheet_main.
  split; [done|]. split; [done|]. split; [done|].
  split; [|split].
  - intros -> ->. by eexists _, _.
  - by intros ->.
  - by intros -> ->.
Qed.


End ExportClaims.

(** C8 as stated fails: an empty ledger is written with the columns it has,
    in the order it has them.  A ledger sheet that holds only a header row
    starting Customer, Date is exported in that order. *)
Lemma export_order_counterexample :
  ¬ (∀ L e oe T sheets,
       _recompute_from_main plain_pandas L e oe = Ok T →
       export_sheets T = Ok sheets →
       ∃ ledger,
         dict_get MAIN_SHEET sheets = Some ledger
         ∧ columns ledger = MAIN_COLUMNS).
Proof.
  intros H.
  destruct (H headers_only 0 0 (bundle plain_pandas headers_only 0 0) (bundle plain_pandas headers_only 0 0))
    as (ledger & Hl & Hc); [reflexivity..|].
  injection Hl as <-. discriminate Hc.
Qed.


(** C1 as stated fails on binary64 numbers: pandas adds the cells of a group
    with a compensated sum and the cells of a column from left to right, and
    every addition rounds.  For three deposits 0.1, 0.2 and 0.3 of one
    customer the customer summary holds 0.6, the binary64 number
    5404319552844595 / 2^53, while the Deposit Amount column of the ledger
    sums to 0.6000000000000001, the next binary64 number. *)
Lemma customer_sums_counterexample :
  ¬ (∀ pd L e oe, usable L = true →
       ∃ main cust purchase daily,
         _recompute_from_main pd L e oe
         = Ok [(MAIN_SHEET, main); (CUSTOMER_SHEET, cust);
               (PURCHASE_SHEET, purchase); (DAILY_SHEET, daily)]
         ∧ col_total pd "Total Deposit" cust == col_total pd "Deposit Amount" main
         ∧ col_total pd "Total Paid" cust == col_total pd "Amount Paid" main
         ∧ col_total pd "Outstanding" cust == col_total pd "Outstanding" main).
Proof.
  intros H.
  destruct (H binary64_pandas drift_ledger 0 0 eq_refl)
    as (main & cust & purchase & daily & Heq & Hd & _).
  rewrite recompute_view in Heq.
  change (usable drift_ledger) with true in Heq. cbv iota in Heq.
  unfold bundle in Heq.
  remember (_sanitize_types binary64_pandas drift_ledger) as m eqn:Em.
  remember (customer_table binary64_pandas m) as c eqn:Ec.
  remember (purchase_table binary64_pandas m) as p eqn:Ep.
  remember (daily_table binary64_pandas m 0 0) as d eqn:Ed.
  assert (main = m ∧ cust = c) as [-> ->] by (by injection Heq).
  subst c m. apply Qeq_bool_iff in Hd. vm_compute in Hd. discriminate Hd.
Qed.

Example drift_ledger_sums :
  col_total binary64_pandas "Total Deposit"
    (customer_table binary64_pandas
       (_sanitize_types binary64_pandas drift_ledger))
  = 5404319552844595 # 9007199254740992
  ∧ ledger_sum binary64_pandas "Deposit Amount" drift_ledger
    = 1351079888211149 # 2251799813685248.
Proof. split; vm_compute; reflexivity. Qed.

(** ** The entry form *)

Lemma string_length_ind (P : string → Prop) :
  (∀ s, (∀ t, (String.length t < String.length s)%nat → P t) → P s) →
  ∀ s, P s.
Proof.
  intros H s. remember (String.length s) as n eqn:Hn. revert s Hn.
  induction n as [n IH] using lt_wf_ind. intros s ->.
  apply H. intros t Ht. by apply (IH _ Ht).
Qed.

(** The three kinds of white space exclude each other by their first byte. *)
Lemma space2_first a b : space2 a b = true → space1 a = false.
Proof.
  unfold space2, space1. intros [Ha _]%andb_true_iff.
  apply Nat.eqb_eq in Ha. by rewrite Ha.
Qed.

Lemma space3_first a b c :
  space3 a b c = true → space1 a = false ∧ ∀ b', space2 a b' = false.
Proof.
  unfold space3, space2, space1. intros H.
  assert (Ascii.nat_of_ascii a = 225%nat ∨ Ascii.nat_of_ascii a = 226%nat
          ∨ Ascii.nat_of_ascii a = 227%nat) as Ha.
  { rewrite !orb_true_iff, !andb_true_iff, !Nat.eqb_eq in H. naive_solver. }
  destruct Ha as [-> | [-> | ->]]; by split.
Qed.

Lemma lstrip_whitespace s : whitespace_only s = true → lstrip s = "".
Proof.
  induction s as [s IH] using string_length_ind.
  destruct s as [|a [|b [|c s3]]]; simpl; [done|..].
  - by destruct (space1 a).
  - destruct (space1 a); [|by destruct (space2 a b)].
    intros H. apply (IH (String b "")); [simpl; lia|done].
  - destruct (space1 a).
    { intros H. apply (IH (String b (String c s3))); [simpl; lia|done]. }
    destruct (space2 a b).
    { intros H. apply (IH (String c s3)); [simpl; lia|done]. }
    destruct (space3 a b c); [|done].
    intros H. apply (IH s3); [simpl; lia|done].
Qed.

Lemma lstrip_keeps s : whitespace_only (lstrip s) = true → whitespace_only s = true.
Proof.
  induction s as [s IH] using string_length_ind.
  destruct s as [|a [|b [|c s3]]]; [done|..].
  - cbn [lstrip whitespace_only].
    destruct (space1 a) eqn:E1; [done|]. cbn [whitespace_only]. by rewrite E1.
  - cbn [lstrip whitespace_only]. destruct (space1 a) eqn:E1.
    { apply (IH (String b "")). simpl; lia. }
    destruct (space2 a b) eqn:E2; [done|]. cbn [whitespace_only].
    by rewrite E1, E2.
  - cbn [lstrip whitespace_only]. destruct (space1 a) eqn:E1.
    { apply (IH (String b (String c s3))). simpl; lia. }
    destruct (space2 a b) eqn:E2.
    { apply (IH (String c s3)). simpl; lia. }
    destruct (space3 a b c) eqn:E3.
    { rewrite andb_true_l. apply (IH s3). simpl; lia. }
    cbn [whitespace_only]. by rewrite E1, E2, E3.
Qed.

Lemma append_cons a s t :
  String.append (String a s) t = String a (String.append s t).
Proof. reflexivity. Qed.

Lemma whitespace_only_space w ws :
  is_space w = true →
  whitespace_only (String.append w ws) = whitespace_only ws.
Proof.
  destruct w as [|a [|b [|c [|d w]]]]; cbn [is_space]; [done| | | |done];
    rewrite !append_cons; change (String.append "" ws) with ws;
    cbn [whitespace_only].
  - by intros ->.
  - intros H. by rewrite (space2_first a b H), H.
  - intros H. destruct (space3_first a b c H) as [-> H2].
    by rewrite H2, H.
Qed.

(** [rstrip] removes white space only. *)
Lemma rstrip_suffix s :
  ∃ ws, s = String.append (rstrip s) ws ∧ whitespace_only ws = true.
Proof.
  induction s as [|a s (ws & Hs & Hws)]; [by exists ""|].
  cbn [rstrip]. cbv zeta. destruct (is_space (String a (rstrip s))) eqn:E.
  - exists (String a s). split; [done|].
    replace (String a s) with (String.append (String a (rstrip s)) ws)
      by (rewrite append_cons; by f_equal).
    by rewrite whitespace_only_space.
  - exists ws. split; [|done]. rewrite append_cons. by f_equal.
Qed.

(** [strip] leaves nothing exactly on the strings made of white space only,
    the empty string among them. *)
Lemma strip_empty_iff s : strip s = "" ↔ whitespace_only s = true.
Proof.
  unfold strip. split.
  - intros H. apply lstrip_keeps.
    destruct (rstrip_suffix (lstrip s)) as (ws & Hs & Hws).
    rewrite H in Hs. change (lstrip s = ws) in Hs. by rewrite Hs.
  - intros H. by rewrite lstrip_whitespace.
Qed.

Lemma rejects_iff s :
  String.eqb s "" || String.eqb (strip s) "" = whitespace_only s.
Proof.
  destruct (whitespace_only s) eqn:E.
  - apply strip_empty_iff in E. rewrite E. by rewrite orb_true_r.
  - apply orb_false_iff. split; apply String.eqb_neq; intros H.
    + by rewrite H in E.
    + apply strip_empty_iff in H. congruence.
Qed.

Lemma concat_columns a b c :
  c ∈ columns (concat a b) ↔ c ∈ columns a ∨ c ∈ columns b.
Proof.
  unfold concat. simpl. rewrite elem_of_app, list_elem_of_filter.
  destruct (decide (c ∈ columns a)); naive_solver.
Qed.

Lemma concat_new_row_has a en c :
  c ∈ MAIN_COLUMNS → has_col c (concat a (new_row en)) = true.
Proof.
  intros Hc. apply bool_decide_eq_true, concat_columns. by right.
Qed.

Lemma concat_new_row_usable a en :
  df_empty (concat a (new_row en)) = false
  ∧ usable (concat a (new_row en)) = true.
Proof.
  assert (df_empty (concat a (new_row en)) = false) as E.
  { apply df_empty_false_iff. split.
    - intros Hn. assert ("Date" ∈ columns (concat a (new_row en))) as Hin.
      { apply concat_columns. right. simpl. apply list_elem_of_here. }
      rewrite Hn in Hin. by apply elem_of_nil in Hin.
    - unfold concat. simpl rows. rewrite map_app. by intros [_ [=]]%app_eq_nil. }
  split; [done|]. unfold usable. rewrite E, orb_false_l.
  apply forallb_forall. intros c Hc%list_elem_of_In.
  apply concat_new_row_has. unfold REQUIRED_COLUMNS, MAIN_COLUMNS in *.
  set_solver.
Qed.

Lemma new_cells_lookup en :
  let out := deposit en * rate en - amount_paid en in
  new_cells en !! "Outstanding" = Some (Num out)
  ∧ new_cells en !! "Status"
    = Some (Text (if Qle_bool out 0 then "Paid" else "Not Paid")).
Proof.
  unfold new_cells. cbv zeta.
  generalize (Qle_bool (deposit en * rate en - amount_paid en) 0) as b.
  generalize (deposit en * rate en - amount_paid en) as out.
  generalize (deposit en * rate en) as total.
  generalize (deposit en), (rate en), (amount_paid en), (entry_date en),
    (strip (customer en)).
  intros. split; vm_compute; reflexivity.
Qed.

Lemma new_cells_Outstanding en :
  new_cells en !!! "Outstanding" = Num (deposit en * rate en - amount_paid en).
Proof.
  rewrite lookup_total_alt. by rewrite (proj1 (new_cells_lookup en)).
Qed.

Section SessionClaims.

Variable pd : pandas.

Local Abbreviation sanitize := (_sanitize_types pd).
Local Abbreviation recompute := (_recompute_from_main pd).
Local Abbreviation submit' := (submit pd).

(** What the submit handler does, in one equation. *)
Lemma submit_view frames e oe en stored :
  dict_get MAIN_SHEET frames = Some stored →
  submit' frames e oe en
  = if whitespace_only (customer en)
    then Ok (Rejected "Please enter a customer name.", frames)
    else Ok (Added "Entry added and summaries updated.",
             bundle pd (sanitize (concat (sanitize stored) (new_row en))) e oe).
Proof.
  intros Hs. unfold submit. rewrite Hs, rejects_iff.
  destruct (whitespace_only (customer en)); [done|].
  rewrite recompute_view.
  by rewrite (proj2 (concat_new_row_usable (sanitize stored) en)).
Qed.

Lemma appended_rows a en :
  ∃ dates,
    rows (sanitize (concat a (new_row en)))
    = map (sanitize_row pd dates
             (has_in (columns (concat a (new_row en)))))
          (map (reindex (columns (concat a (new_row en)))) (rows a))
      ++ [sanitize_row pd dates
            (has_in (columns (concat a (new_row en))))
            (reindex (columns (concat a (new_row en))) (new_cells en))].
Proof.
  eexists. rewrite sanitize_view by apply concat_new_row_usable.
  simpl rows at 1. unfold concat at 3. simpl rows.
  rewrite !map_app. reflexivity.
Qed.

(** C7: a submission whose customer is empty or made of white space only is
    rejected and leaves the stored tables as they were; any other
    submission appends exactly one row to the ledger and replaces the four
    stored tables by the bundle recomputed from the extended ledger. *)
Theorem submit_validates_customer frames e oe en stored :
  dict_get MAIN_SHEET frames = Some stored →
  (whitespace_only (customer en) = true →
   submit' frames e oe en = Ok (Rejected "Please enter a customer name.", frames))
  ∧ (whitespace_only (customer en) = false →
     ∃ T ledger,
       submit' frames e oe en = Ok (Added "Entry added and summaries updated.", T)
       ∧ recompute (concat (sanitize stored) (new_row en)) e oe = Ok T
       ∧ dict_keys T = SHEETS
       ∧ dict_get MAIN_SHEET T = Some ledger
       ∧ length (rows ledger) = S (length (rows stored))).
Proof.
  intros Hs. rewrite (submit_view _ _ _ _ _ Hs). split; intros ->; [done|].
  eexists _, _. split; [reflexivity|].
  rewrite recompute_view, (proj2 (concat_new_row_usable _ _)).
  split; [reflexivity|]. split; [reflexivity|]. split; [reflexivity|].
  destruct (appended_rows (sanitize stored) en) as [dates ->].
  rewrite length_app, !length_map. simpl.
  rewrite sanitize_rows_length. lia.
Qed.

(** C10: the row appended by an accepted submission stores Outstanding as
    total amount minus amount paid, not clamped, so negative when the
    amount paid exceeds deposit times rate, and stores Status Paid exactly
    when that value is at most 0, so an all-zero entry is stored as Paid;
    the live preview instead clamps Outstanding at 0 and shows the status
    "-" when the total amount is 0. *)
Theorem stored_outstanding_unclamped frames e oe en stored :
  dict_get MAIN_SHEET frames = Some stored →
  whitespace_only (customer en) = false →
  let total := deposit en * rate en in
  let out := total - amount_paid en in
  ∃ T ledger r,
    submit' frames e oe en = Ok (Added "Entry added and summaries updated.", T)
    ∧ dict_get MAIN_SHEET T = Some ledger
    ∧ last (rows ledger) = Some r
    ∧ new_cells en !! "Outstanding" = Some (Num out)
    ∧ (new_cells en !! "Status" = Some (Text "Paid") ↔ out <= 0)
    ∧ r !! "Outstanding" = Some (Num out)
    ∧ (total < amount_paid en → out < 0)
    ∧ (r !! "Status" = Some (Text "Paid") ↔ out <= 0)
    ∧ (r !! "Status" = Some (Text "Not Paid") ↔ ¬ out <= 0)
    ∧ (deposit en == 0 → rate en == 0 → amount_paid en == 0 →
       r !! "Status" = Some (Text "Paid") ∧ preview_status en = "-")
    ∧ 0 <= preview_outstanding en
    ∧ (out <= 0 → preview_outstanding en == 0)
    ∧ (0 <= out → preview_outstanding en = out)
    ∧ (total == 0 → preview_status en = "-").
Proof.
  intros Hs Hw total out. rewrite (submit_view _ _ _ _ _ Hs), Hw.
  destruct (appended_rows (sanitize stored) en) as [dates Hrows].
  eexists _, _, _. split; [reflexivity|]. split; [reflexivity|].
  rewrite Hrows, last_snoc. split; [reflexivity|].
  set (cols := columns (concat (sanitize stored) (new_row en))).
  assert (has_in cols "Outstanding" = true) as Hin.
  { apply (concat_new_row_has (sanitize stored) en). unfold MAIN_COLUMNS. set_solver. }
  assert ("Outstanding" ∈ cols) as Hin' by (by apply bool_decide_eq_true in Hin).
  pose proof (sanitize_row_Outstanding pd dates
                _ (reindex cols (new_cells en)) Hin) as Ho.
  pose proof (sanitize_row_Status pd dates
                _ (reindex cols (new_cells en)) Hin) as Hst.
  rewrite (reindex_total _ _ _ Hin'), new_cells_Outstanding in Ho, Hst.
  fold total in Ho, Hst. fold out in Ho, Hst.
  change (coerced pd (Num out)) with (Num out) in Ho, Hst.
  destruct (status_consistent_intro _ _ Ho Hst) as (x & Hx & Hp & Hn).
  rewrite Ho in Hx. injection Hx as <-.
  assert (total == 0 → preview_status en = "-") as Hdash.
  { intros Hz. unfold preview_status, Qgt_bool, preview_total. fold total.
    rewrite (proj2 (Qle_bool_iff total 0)) by lra.
    simpl negb. by rewrite andb_false_r. }
  assert (preview_outstanding en = if Qle_bool 0 out then out else 0) as Hprev.
  { done. }
  split; [apply new_cells_lookup|]. split.
  { rewrite (proj2 (new_cells_lookup en)). fold total. fold out.
    rewrite <- Qle_bool_iff. by destruct (Qle_bool out 0). }
  split; [done|]. split; [intros; subst out; lra|].
  split; [done|]. split; [done|]. split.
  { intros Hd Hr Ha. assert (total == 0) as Hz by (subst total; rewrite Hd; ring).
    split; [|by apply Hdash]. apply Hp. subst out. lra. }
  rewrite Hprev. destruct (Qle_bool 0 out) eqn:E.
  - apply Qle_bool_iff in E. split; [done|]. split; [intros; lra|]. by split.
  - split; [lra|]. split; [intros; reflexivity|]. split; [|done].
    intros H%Qle_bool_iff. congruence.
Qed.

End SessionClaims.

(** ** The theorems on the sample data *)

Lemma customer_sums_reconcile_sample :
  (usable round_ledger = true
   ∧ sums_exact binary64_pandas "Deposit Amount" (_sanitize_types binary64_pandas round_ledger) = true
   ∧ sums_exact binary64_pandas "Amount Paid" (_sanitize_types binary64_pandas round_ledger) = true
   ∧ sums_exact binary64_pandas "Outstanding" (_sanitize_types binary64_pandas round_ledger) = true)
  ∧ ∃ cust purchase daily,
      _recompute_from_main binary64_pandas round_ledger 10 5
      = Ok [(MAIN_SHEET, _sanitize_types binary64_pandas round_ledger);
            (CUSTOMER_SHEET, cust); (PURCHASE_SHEET, purchase);
            (DAILY_SHEET, daily)]
      ∧ col_total binary64_pandas "Total Deposit" cust
        == ledger_sum binary64_pandas "Deposit Amount" round_ledger
      ∧ col_total binary64_pandas "Total Paid" cust
        == ledger_sum binary64_pandas "Amount Paid" round_ledger
      ∧ col_total binary64_pandas "Outstanding" cust
        == ledger_sum binary64_pandas "Outstanding" round_ledger
      ∧ ledger_sum binary64_pandas "Deposit Amount" round_ledger == 2500
      ∧ ledger_sum binary64_pandas "Amount Paid" round_ledger == 750
      ∧ ledger_sum binary64_pandas "Outstanding" round_ledger == 2250
      ∧ metric_value "Total Amount (Σ deposit*rate)" purchase
        = Some (Num (ledger_sum binary64_pandas "Total Amount" round_ledger))
      ∧ metric_value "Sum of Total Amount" daily
        = Some (Num (ledger_sum binary64_pandas "Total Amount" round_ledger)).
Proof.
  assert (sums_exact binary64_pandas "Deposit Amount"
            (_sanitize_types binary64_pandas round_ledger) = true) as H1
    by (vm_compute; reflexivity).
  assert (sums_exact binary64_pandas "Amount Paid"
            (_sanitize_types binary64_pandas round_ledger) = true) as H2
    by (vm_compute; reflexivity).
  assert (sums_exact binary64_pandas "Outstanding"
            (_sanitize_types binary64_pandas round_ledger) = true) as H3
    by (vm_compute; reflexivity).
  split; [split; [reflexivity|split; [exact H1|split; [exact H2|exact H3]]]|].
  destruct (customer_sums_reconcile binary64_pandas round_ledger 10 5 eq_refl)
    as (cust & purchase & daily & Heq & Hd & Hp & Ho & Ht & Hs).
  exists cust, purchase, daily.
  split; [exact Heq|]. split; [exact (Hd H1)|]. split; [exact (Hp H2)|].
  split; [exact (Ho H3)|].
  split; [vm_compute; reflexivity|]. split; [vm_compute; reflexivity|].
  split; [vm_compute; reflexivity|]. split; [exact Ht|exact Hs].
Defined.

Lemma status_follows_outstanding_sample :
  (has_col "Outstanding" sample_ledger = true
   ∧ Forall2 (λ r r' : gmap string cell,
                let x := cell_num (coerced plain_pandas (r !!! "Outstanding")) in
                r' !! "Outstanding" = Some (Num x)
                ∧ r' !! "Status" = Some (Text (status_label (status_of x)))
                ∧ status_consistent r')
       (rows sample_ledger)
       (rows (_sanitize_types plain_pandas sample_ledger)))
  ∧ (usable sample_ledger = true
     ∧ ∃ main cust purchase daily,
         _recompute_from_main plain_pandas sample_ledger 10 5
         = Ok [(MAIN_SHEET, main); (CUSTOMER_SHEET, cust);
               (PURCHASE_SHEET, purchase); (DAILY_SHEET, daily)]
         ∧ (has_col "Outstanding" main = true →
            Forall status_consistent (rows main))
         ∧ Forall (λ r : gmap string cell,
                     status_consistent r
                     ∧ r !! "Outstanding"
                       = Some (Num (group_total plain_pandas "Outstanding" (r !!! "Customer") main)))
                  (rows cust)).
Proof.
  split; (split; [reflexivity|]).
  - apply (proj1 (status_follows_outstanding plain_pandas)).
    reflexivity.
  - apply (proj2 (status_follows_outstanding plain_pandas)).
    reflexivity.
Defined.

Lemma recompute_idempotent_sample :
  usable sample_ledger = true
  ∧ ∃ T main,
      _recompute_from_main plain_pandas sample_ledger 10 5 = Ok T
      ∧ dict_get MAIN_SHEET T = Some main
      ∧ _recompute_from_main plain_pandas main 10 5 = Ok T.
Proof.
  split; [reflexivity|].
  apply (recompute_idempotent plain_pandas sample_ledger 10 5).
  reflexivity.
Defined.

Lemma share_guard_sample :
  (usable round_ledger = true
   ∧ ¬ ledger_sum binary64_pandas "Total Amount" round_ledger == 0)
  ∧ ∃ cust purchase daily paid_share outstanding_share,
      _recompute_from_main binary64_pandas round_ledger 10 5
      = Ok [(MAIN_SHEET, _sanitize_types binary64_pandas round_ledger);
            (CUSTOMER_SHEET, cust); (PURCHASE_SHEET, purchase);
            (DAILY_SHEET, daily)]
      ∧ metric_value "Paid Share (%)" purchase = Some (Num paid_share)
      ∧ paid_share == 25
      ∧ metric_value "Outstanding Share (%)" purchase
        = Some (Num outstanding_share)
      ∧ outstanding_share == 75.
Proof.
  assert (¬ ledger_sum binary64_pandas "Total Amount" round_ledger == 0) as Hnz
    by (intros H; vm_compute in H; discriminate H).
  split; [split; [reflexivity|exact Hnz]|].
  destruct (proj2 (share_guard binary64_pandas) round_ledger 10 5 eq_refl)
    as (cust & purchase & daily & Heq & Hshare & _).
  destruct (Hshare Hnz) as [Hp Ho].
  exists cust, purchase, daily. eexists _, _.
  split; [exact Heq|]. split; [exact Hp|]. split; [vm_compute; reflexivity|].
  split; [exact Ho|]. vm_compute; reflexivity.
Defined.

Lemma daily_summary_metrics_sample :
  usable round_ledger = true
  ∧ (∃ cust purchase,
       let total := ledger_sum binary64_pandas "Total Amount" round_ledger in
       let paid := ledger_sum binary64_pandas "Amount Paid" round_ledger in
       _recompute_from_main binary64_pandas round_ledger 10 5
       = Ok [(MAIN_SHEET, _sanitize_types binary64_pandas round_ledger);
             (CUSTOMER_SHEET, cust); (PURCHASE_SHEET, purchase);
             (DAILY_SHEET,
              Frame ["Metric"; "Value"]
                [ {[ "Metric" := Text "Expense"; "Value" := Num 10 ]};
                  {[ "Metric" := Text "Other Expense"; "Value" := Num 5 ]};
                  {[ "Metric" := Text "Sum of Total Amount";
                     "Value" := Num total ]};
                  {[ "Metric" := Text "Total Paid"; "Value" := Num paid ]};
                  {[ "Metric" := Text "Profit";
                     "Value" := Num (total - paid - 10 - 5) ]} ])])
  ∧ ledger_sum binary64_pandas "Total Amount" round_ledger == 3000
  ∧ ledger_sum binary64_pandas "Amount Paid" round_ledger == 750
  ∧ ledger_sum binary64_pandas "Total Amount" round_ledger
    - ledger_sum binary64_pandas "Amount Paid" round_ledger - 10 - 5 == 2235.
Proof.
  split; [reflexivity|]. split.
  - apply (daily_summary_metrics binary64_pandas round_ledger 10 5). reflexivity.
  - split; [vm_compute; reflexivity|]. split; vm_compute; reflexivity.
Defined.

Lemma export_ledger_order_sample :
  usable shuffled_ledger = true
  ∧ ∃ T main,
      _recompute_from_main plain_pandas shuffled_ledger 0 0 = Ok T
      ∧ dict_keys T = SHEETS
      ∧ dict_get MAIN_SHEET T = Some main
      ∧ (df_empty main = false →
         forallb (λ c, has_col c main) MAIN_COLUMNS = true →
         ∃ sheets ledger,
           _to_excel_bytes sheets_writer T = Ok (sheets_writer sheets)
           ∧ dict_keys sheets = SHEETS
           ∧ dict_get MAIN_SHEET sheets = Some ledger
           ∧ columns ledger = MAIN_COLUMNS
           ∧ rows ledger = map (reindex MAIN_COLUMNS) (rows main))
      ∧ (df_empty main = true →
         _to_excel_bytes sheets_writer T = Ok (sheets_writer T))
      ∧ (df_empty main = false →
         forallb (λ c, has_col c main) MAIN_COLUMNS = false →
         _to_excel_bytes sheets_writer T = Raise KeyError).
Proof.
  split; [reflexivity|].
  apply (export_ledger_order plain_pandas _ sheets_writer
           shuffled_ledger 0 0).
  reflexivity.
Defined.


Lemma load_workbook_total_sample :
  _load_workbook sheets_reader [("Notes", headers_only); (MAIN_SHEET, sample_ledger)]
  = [ (MAIN_SHEET, sample_ledger);
      (CUSTOMER_SHEET,
       Frame ["Customer"; "Total Deposit"; "Total Paid"; "Outstanding";
              "Status"] []);
      (PURCHASE_SHEET, Frame ["Metric"; "Value"] []);
      (DAILY_SHEET, Frame ["Metric"; "Value"] []) ].
Proof.
  apply (proj1 (load_workbook_total _ sheets_reader
                  [("Notes", headers_only); (MAIN_SHEET, sample_ledger)])).
Defined.

Lemma submit_validates_customer_sample :
  dict_get MAIN_SHEET _empty_frames = Some (empty_frame MAIN_COLUMNS)
  ∧ whitespace_only (customer blank_entry) = true
  ∧ submit plain_pandas _empty_frames 0 0 blank_entry
    = Ok (Rejected "Please enter a customer name.", _empty_frames)
  ∧ whitespace_only (customer alice_entry) = false
  ∧ ∃ T ledger,
      submit plain_pandas _empty_frames 0 0 alice_entry
      = Ok (Added "Entry added and summaries updated.", T)
      ∧ _recompute_from_main plain_pandas
          (concat (_sanitize_types plain_pandas
                     (empty_frame MAIN_COLUMNS))
                  (new_row alice_entry)) 0 0
        = Ok T
      ∧ dict_keys T = SHEETS
      ∧ dict_get MAIN_SHEET T = Some ledger
      ∧ length (rows ledger) = S (length (rows (empty_frame MAIN_COLUMNS))).
Proof.
  split; [reflexivity|]. split; [reflexivity|]. split.
  - apply (proj1 (submit_validates_customer plain_pandas
                    _empty_frames 0 0 blank_entry (empty_frame MAIN_COLUMNS)
                    eq_refl)).
    reflexivity.
  - split; [reflexivity|].
    apply (proj2 (submit_validates_customer plain_pandas
                    _empty_frames 0 0 alice_entry (empty_frame MAIN_COLUMNS)
                    eq_refl)).
    reflexivity.
Defined.

Lemma stored_outstanding_unclamped_sample :
  dict_get MAIN_SHEET _empty_frames = Some (empty_frame MAIN_COLUMNS)
  ∧ whitespace_only (customer overpaid_entry) = false
  ∧ let total := deposit overpaid_entry * rate overpaid_entry in
    let out := total - amount_paid overpaid_entry in
    ∃ T ledger r,
      submit plain_pandas _empty_frames 0 0 overpaid_entry
      = Ok (Added "Entry added and summaries updated.", T)
      ∧ dict_get MAIN_SHEET T = Some ledger
      ∧ last (rows ledger) = Some r
      ∧ new_cells overpaid_entry !! "Outstanding" = Some (Num out)
      ∧ (new_cells overpaid_entry !! "Status" = Some (Text "Paid") ↔ out <= 0)
      ∧ r !! "Outstanding" = Some (Num out)
      ∧ (total < amount_paid overpaid_entry → out < 0)
      ∧ (r !! "Status" = Some (Text "Paid") ↔ out <= 0)
      ∧ (r !! "Status" = Some (Text "Not Paid") ↔ ¬ out <= 0)
      ∧ (deposit overpaid_entry == 0 → rate overpaid_entry == 0 →
         amount_paid overpaid_entry == 0 →
         r !! "Status" = Some (Text "Paid") ∧ preview_status overpaid_entry = "-")
      ∧ 0 <= preview_outstanding overpaid_entry
      ∧ (out <= 0 → preview_outstanding overpaid_entry == 0)
      ∧ (0 <= out → preview_outstanding overpaid_entry = out)
      ∧ (total == 0 → preview_status overpaid_entry = "-").
Proof.
  split; [reflexivity|]. split; [reflexivity|].
  apply (stored_outstanding_unclamped plain_pandas
           _empty_frames 0 0 overpaid_entry (empty_frame MAIN_COLUMNS)).
  - reflexivity.
  - reflexivity.
Defined.

(** ** The scenarios of the specification, evaluated *)

(** Adding (2024-01-01, Alice, deposit 1000, rate 1.1, paid 500) to a fresh
    session: total amount 1100, outstanding 600, status Not Paid; the
    customer row mirrors the ledger row; paid share 500/1100*100; profit,
    without expenses, 600. *)
Example scenario_alice :
  let T := frames_after
             (submit plain_pandas _empty_frames 0 0 alice_entry) in
  dict_keys T = SHEETS
  ∧ (length ∘ rows <$> dict_get MAIN_SHEET T) = Some 1%nat
  ∧ cell_at MAIN_SHEET 0 "Customer" T = Some (Text "Alice")
  ∧ number_at MAIN_SHEET 0 "Total Amount" 1100 T = true
  ∧ number_at MAIN_SHEET 0 "Outstanding" 600 T = true
  ∧ cell_at MAIN_SHEET 0 "Status" T = Some (Text "Not Paid")
  ∧ cell_at CUSTOMER_SHEET 0 "Customer" T = Some (Text "Alice")
  ∧ number_at CUSTOMER_SHEET 0 "Total Deposit" 1000 T = true
  ∧ number_at CUSTOMER_SHEET 0 "Total Paid" 500 T = true
  ∧ number_at CUSTOMER_SHEET 0 "Outstanding" 600 T = true
  ∧ cell_at CUSTOMER_SHEET 0 "Status" T = Some (Text "Not Paid")
  ∧ number_at PURCHASE_SHEET 3 "Value" (500 / 1100 * 100) T = true
  ∧ cell_at DAILY_SHEET 4 "Metric" T = Some (Text "Profit")
  ∧ number_at DAILY_SHEET 4 "Value" 600 T = true.
Proof. vm_compute. repeat split. Qed.

(** The overpaid entry is stored with outstanding -50 and status Paid, while
    the preview shows outstanding 0. *)
Example scenario_overpaid :
  let T := frames_after
             (submit plain_pandas _empty_frames 0 0 overpaid_entry) in
  cell_at MAIN_SHEET 0 "Customer" T = Some (Text "Bob")
  ∧ number_at MAIN_SHEET 0 "Outstanding" (-50) T = true
  ∧ cell_at MAIN_SHEET 0 "Status" T = Some (Text "Paid")
  ∧ preview_outstanding overpaid_entry = 0
  ∧ preview_status overpaid_entry = "Paid".
Proof. vm_compute. repeat split. Qed.

(** An all-zero entry is stored as Paid and previewed as "-". *)
Example scenario_all_zero :
  let en := Entry (Date 2024 1 4) "Carol" 0 0 0 in
  let T := frames_after
             (submit plain_pandas _empty_frames 0 0 en) in
  number_at MAIN_SHEET 0 "Outstanding" 0 T = true
  ∧ cell_at MAIN_SHEET 0 "Status" T = Some (Text "Paid")
  ∧ preview_outstanding en = 0
  ∧ preview_status en = "-".
Proof. vm_compute. repeat split. Qed.

(** A blank customer is rejected and the stored tables stay as they were. *)
Example scenario_blank :
  submit plain_pandas _empty_frames 0 0 blank_entry
  = Ok (Rejected "Please enter a customer name.", _empty_frames).
Proof. reflexivity. Qed.

(** The white space of Unicode is stripped: an ideographic space in front
    and a space and an em space behind a name, and a no-break space, which
    is two bytes in UTF-8; a letter that shares its first byte with the
    no-break space stays. *)
Example strip_unicode :
  strip (customer alice_again) = "Alice"
  ∧ whitespace_only (customer blank_entry) = true
  ∧ strip (String (Ascii.ascii_of_nat 194) (String (Ascii.ascii_of_nat 160) "x")) = "x"
  ∧ strip (String (Ascii.ascii_of_nat 194) (String (Ascii.ascii_of_nat 169) "")) = String (Ascii.ascii_of_nat 194) (String (Ascii.ascii_of_nat 169) "")
  ∧ strip " a b " = "a b".
Proof. repeat split; vm_compute; reflexivity. Qed.

(** * Further properties of the code *)

(** ** The normalizer, column by column *)

Section NormalizerColumns.

Variable pd : pandas.

Local Abbreviation sanitize := (_sanitize_types pd).
Local Abbreviation sanitize_row' := (sanitize_row pd).

Lemma sanitize_row_coerced dates has r c :
  c ∈ NUMERIC_COLUMNS →
  sanitize_row' dates has r !! c
  = if has c then Some (coerced pd (r !!! c)) else r !! c.
Proof.
  intros Hc. unfold sanitize_row, NUMERIC_COLUMNS in *.
  rewrite !elem_of_cons in Hc.
  destruct Hc as [->|[->|[->|[->|[->|Hc]]]]]; [..|by apply elem_of_nil in Hc];
    rewrite set_status_lookup_ne by done;
    repeat first [ rewrite upd_lookup_ne by done | rewrite upd_lookup_eq ];
    by strip_upd.
Qed.

Lemma sanitize_row_Date dates has r :
  sanitize_row' dates has r !! "Date"
  = if has "Date" then Some (to_date pd dates (r !!! "Date")) else r !! "Date".
Proof.
  unfold sanitize_row. rewrite set_status_lookup_ne by done.
  repeat (rewrite upd_lookup_ne by done). by rewrite upd_lookup_eq.
Qed.

Lemma sanitize_row_other dates has r c :
  c ∉ "Date" :: "Status" :: NUMERIC_COLUMNS →
  sanitize_row' dates has r !! c = r !! c.
Proof.
  intros Hc. unfold NUMERIC_COLUMNS in Hc. rewrite !not_elem_of_cons in Hc.
  destruct Hc as (? & ? & ? & ? & ? & ? & ? & _).
  unfold sanitize_row. rewrite set_status_lookup_ne by done.
  by repeat (rewrite upd_lookup_ne by done).
Qed.

Lemma sanitize_row_stale_status dates has r :
  has "Outstanding" = false →
  sanitize_row' dates has r !! "Status" = r !! "Status".
Proof.
  intros H. unfold sanitize_row. rewrite H. unfold set_status.
  by repeat (rewrite upd_lookup_ne by done).
Qed.

Lemma to_date_range col c :
  to_date pd col c = NaN
  ∨ ∃ d, to_date pd col c = Day d ∧ timestamp_range pd d = true.
Proof.
  unfold to_date.
  destruct (match c with
            | Text s => parse_datetime pd col s
            | Num x => epoch_date pd col x
            | Day d => Some d
            | NaN => None
            end) as [d|]; [|by left].
  destruct (timestamp_range pd d) eqn:E; [right; by exists d|by left].
Qed.

(** The normalizer keeps the number of rows and the columns in their order;
    the only column it can add is Status, at the end, for a table with rows
    that has an Outstanding column and no Status column; a table without
    rows or without columns is returned as it is. *)
Theorem sanitize_shape df :
  length (rows (sanitize df)) = length (rows df)
  ∧ (df_empty df = true → sanitize df = df)
  ∧ (df_empty df = false →
     columns (sanitize df)
     = if bool_decide ("Outstanding" ∈ columns df)
          && negb (bool_decide ("Status" ∈ columns df))
       then columns df ++ ["Status"] else columns df).
Proof.
  split; [apply sanitize_rows_length|]. split; [apply sanitize_empty|].
  intros E. by rewrite sanitize_view.
Qed.

(** In a table with rows, every cell of a numeric column that the table has
    becomes a number, 0 for a missing or unreadable one, and every cell of
    the Date column becomes a date, one that pandas can hold as a timestamp,
    or the missing value; no text and no number is left there. *)
Theorem sanitize_types_cells df :
  df_empty df = false →
  Forall2 (λ r r' : gmap string cell,
             (∀ c, c ∈ NUMERIC_COLUMNS → c ∈ columns df →
                   r' !! c = Some (Num (default 0 (to_numeric pd (r !!! c)))))
             ∧ ("Date" ∈ columns df →
                r' !! "Date" = Some NaN
                ∨ ∃ d, r' !! "Date" = Some (Day d)
                       ∧ timestamp_range pd d = true))
          (rows df) (rows (sanitize df)).
Proof.
  intros E. rewrite sanitize_view by done. simpl rows.
  apply Forall2_fmap_r, Forall_Forall2_diag, Forall_forall.
  intros r _. simpl. split.
  - intros c Hc Hin. rewrite sanitize_row_coerced by done.
    unfold has_in. by rewrite bool_decide_eq_true_2.
  - intros Hin. rewrite sanitize_row_Date. unfold has_in.
    rewrite bool_decide_eq_true_2 by done.
    destruct (to_date_range (map (λ r : gmap string cell, r !!! "Date") (rows df))
                (r !!! "Date")) as [->|(d & -> & Hd)];
      [by left|right; by exists d].
Qed.

(** The normalizer leaves every other cell as it is: the cells of the
    Customer column and of any column it does not know, the cells of a column
    that the table does not list, and, in a table without Outstanding column,
    the Status cells, which then keep whatever the input said. *)
Theorem sanitize_keeps_other_cells df :
  Forall2 (λ r r' : gmap string cell,
             (∀ c, c ∉ "Date" :: "Status" :: NUMERIC_COLUMNS → r' !! c = r !! c)
             ∧ (∀ c, c ∈ "Date" :: NUMERIC_COLUMNS → c ∉ columns df →
                     r' !! c = r !! c)
             ∧ ("Outstanding" ∉ columns df → r' !! "Status" = r !! "Status"))
          (rows df) (rows (sanitize df)).
Proof.
  destruct (df_empty df) eqn:E.
  { rewrite sanitize_empty by done. by apply Forall_Forall2_diag, Forall_forall. }
  rewrite sanitize_view by done. simpl rows.
  apply Forall2_fmap_r, Forall_Forall2_diag, Forall_forall.
  intros r _. simpl. split; [|split].
  - intros c Hc. by apply sanitize_row_other.
  - intros c Hc Hnot. apply elem_of_cons in Hc as [->|Hc].
    + rewrite sanitize_row_Date. unfold has_in.
      by rewrite bool_decide_eq_false_2.
    + rewrite sanitize_row_coerced by done. unfold has_in.
      by rewrite bool_decide_eq_false_2.
  - intros Hnot. apply sanitize_row_stale_status. unfold has_in.
    by rewrite bool_decide_eq_false_2.
Qed.

End NormalizerColumns.

(** ** The engine: the rows of the customer summary, balanced rows *)

Lemma remove_dups_length_le {A} `{EqDecision A} (l : list A) :
  (length (remove_dups l) ≤ length l)%nat.
Proof.
  induction l as [|x l IH]; simpl; [done|].
  destruct (decide_rel elem_of x l); simpl; lia.
Qed.

Section EngineExtras.

Variable pd : pandas.

Local Abbreviation sanitize := (_sanitize_types pd).
Local Abbreviation recompute := (_recompute_from_main pd).

(** The customer summary of a ledger with rows has exactly one row for every
    distinct customer of the ledger, the missing customer among them, and no
    other row. *)
Theorem customer_summary_rows L e oe :
  usable L = true → df_empty L = false →
  ∃ main cust purchase daily,
    recompute L e oe
    = Ok [(MAIN_SHEET, main); (CUSTOMER_SHEET, cust);
          (PURCHASE_SHEET, purchase); (DAILY_SHEET, daily)]
    ∧ columns cust = CUSTOMER_COLUMNS
    ∧ NoDup (map (λ r : gmap string cell, r !!! "Customer") (rows cust))
    ∧ (∀ k, k ∈ map (λ r : gmap string cell, r !!! "Customer") (rows cust)
            ↔ ∃ r, r ∈ rows main ∧ key_of (r !!! "Customer") = k)
    ∧ (0 < length (rows cust) ≤ length (rows main))%nat.
Proof.
  intros U E. rewrite recompute_view, U. unfold bundle.
  eexists _, _, _, _. split; [reflexivity|].
  unfold customer_table. rewrite sanitize_df_empty, E. simpl columns. simpl rows.
  assert (map (λ r : gmap string cell, r !!! "Customer")
            (map (customer_row pd (sanitize L)) (group_keys "Customer" (sanitize L)))
          = group_keys "Customer" (sanitize L)) as Hkeys.
  { rewrite map_map. rewrite <- (map_id (group_keys _ _)) at 2.
    apply map_ext. intros k.
    destruct (customer_row_lookup pd (sanitize L) k) as (Hk & _).
    by rewrite lookup_total_alt, Hk. }
  rewrite Hkeys. split; [done|]. split; [apply group_keys_NoDup|].
  assert (∀ k, k ∈ group_keys "Customer" (sanitize L)
               ↔ ∃ r, r ∈ rows (sanitize L) ∧ key_of (r !!! "Customer") = k) as Hmem.
  { intros k. unfold group_keys.
    rewrite merge_sort_Permutation, elem_of_remove_dups, list_elem_of_fmap.
    naive_solver. }
  split; [exact Hmem|].
  rewrite length_map. split.
  - assert (rows (sanitize L) ≠ []) as Hne.
    { pose proof (sanitize_df_empty pd L) as Hs. rewrite E in Hs.
      by apply df_empty_false_iff in Hs as [_ ?]. }
    destruct (rows (sanitize L)) as [|r rs] eqn:Hr; [done|].
    assert (key_of (r !!! "Customer") ∈ group_keys "Customer" (sanitize L)) as Hin.
    { apply Hmem. exists r. split; [|done]. apply list_elem_of_here. }
    destruct (group_keys "Customer" (sanitize L)); [by apply elem_of_nil in Hin|].
    simpl. lia.
  - unfold group_keys. rewrite merge_sort_Permutation.
    etrans; [apply remove_dups_length_le|]. by rewrite length_map.
Qed.

Lemma balanced_sanitize_row dates has r :
  balanced r → balanced (sanitize_row pd dates has r).
Proof.
  intros (d & rt & t & p & o & Hd & Hrt & Ht & Hp & Ho & E1 & E2).
  exists d, rt, t, p, o.
  assert (∀ c x, c ∈ NUMERIC_COLUMNS → r !! c = Some (Num x) →
                 sanitize_row pd dates has r !! c = Some (Num x)) as Hkeep.
  { intros c x Hc Hx. rewrite sanitize_row_coerced by done.
    destruct (has c); [|done]. by rewrite lookup_total_alt, Hx. }
  unfold NUMERIC_COLUMNS in Hkeep.
  repeat split; try done; apply Hkeep; try done; set_solver.
Qed.

Lemma balanced_sanitize L :
  Forall balanced (rows L) → Forall balanced (rows (sanitize L)).
Proof.
  intros H. destruct (df_empty L) eqn:E.
  - by rewrite sanitize_empty.
  - rewrite sanitize_view by done. simpl rows. apply Forall_fmap.
    eapply Forall_impl; [exact H|]. intros r ?. by apply balanced_sanitize_row.
Qed.

End EngineExtras.

(** ** Export: a fixed point, and the export of the sidebar *)

Lemma reindex_idem cs r : reindex cs (reindex cs r) = reindex cs r.
Proof.
  apply map_eq. intros k. rewrite !reindex_lookup.
  case_bool_decide as Hk; [|done]. by rewrite reindex_total.
Qed.

Lemma export_sheet_idem name df df' :
  export_sheet name df = Ok df' → export_sheet name df' = Ok df'.
Proof.
  unfold export_sheet, select.
  destruct (String.eqb name MAIN_SHEET); simpl andb; [|by intros [= <-]].
  destruct (df_empty df) eqn:E; simpl negb; cbv iota.
  { intros [= <-]. by rewrite E. }
  destruct (forallb _ MAIN_COLUMNS); [|done]. intros [= <-].
  assert (df_empty (Frame MAIN_COLUMNS (map (reindex MAIN_COLUMNS) (rows df)))
          = false) as ->.
  { apply df_empty_false_iff in E as [_ Hr]. apply df_empty_false_iff.
    split; [done|]. simpl. by destruct (rows df). }
  simpl negb. cbv iota.
  replace (forallb _ MAIN_COLUMNS) with true by (by vm_compute).
  simpl rows. rewrite map_map.
  rewrite (map_ext _ (reindex MAIN_COLUMNS)); [done|].
  intros r. apply reindex_idem.
Qed.

Lemma export_sheet_other name df df' :
  export_sheet name df = Ok df' → name ≠ MAIN_SHEET → df' = df.
Proof.
  unfold export_sheet. intros H Hne.
  apply String.eqb_neq in Hne. rewrite Hne in H. by injection H.
Qed.

Lemma export_sheets_fixed frames sheets :
  export_sheets frames = Ok sheets →
  export_sheets sheets = Ok sheets
  ∧ dict_keys sheets = dict_keys frames
  ∧ Forall2 (λ a b : string * DataFrame,
               a.1 = b.1 ∧ (a.1 ≠ MAIN_SHEET → b.2 = a.2)) frames sheets.
Proof.
  revert sheets. induction frames as [|[name df] rest IH]; intros sheets.
  - intros [= <-]. by repeat split.
  - simpl export_sheets. destruct (export_sheet name df) as [df'|] eqn:E1; [|done].
    unfold mbind at 1, result_bind at 1.
    destruct (export_sheets rest) as [rest'|] eqn:E2; [|done].
    unfold mbind, result_bind. intros [= <-].
    destruct (IH rest' eq_refl) as (IH1 & IH2 & IH3).
    simpl export_sheets. rewrite (export_sheet_idem _ _ _ E1).
    unfold mbind, result_bind. rewrite IH1.
    split; [done|]. split; [simpl; by rewrite IH2|].
    constructor; [|done]. split; [done|]. simpl.
    by apply export_sheet_other.
Qed.

Section ExportExtras.

Variable pd : pandas.
Variable file : Type.
Variable read_excel : file → option (list (string * DataFrame)).
Variable write_excel : list (string * DataFrame) → file.

Local Abbreviation sanitize := (_sanitize_types pd).

(** Export is a fixed point: the tables written for a set of frames are
    written unchanged, to the same file, when they are exported again;
    export keeps the names and their order and changes no table but the
    ledger. *)
Theorem to_excel_bytes_idempotent frames f :
  _to_excel_bytes write_excel frames = Ok f →
  ∃ sheets,
    f = write_excel sheets
    ∧ _to_excel_bytes write_excel sheets = Ok f
    ∧ dict_keys sheets = dict_keys frames
    ∧ Forall2 (λ a b : string * DataFrame,
                 a.1 = b.1 ∧ (a.1 ≠ MAIN_SHEET → b.2 = a.2)) frames sheets.
Proof.
  unfold _to_excel_bytes.
  destruct (export_sheets frames) as [sheets|] eqn:E; [|done].
  unfold mbind at 1, result_bind at 1. intros [= <-].
  destruct (export_sheets_fixed _ _ E) as (Hidem & Hk & Hrest).
  exists sheets. rewrite Hidem. by repeat split.
Qed.

Lemma sanitize_has_Status df :
  df_empty df = false → has_col "Outstanding" df = true →
  has_col "Status" (sanitize df) = true.
Proof.
  intros E H. unfold has_col in *. rewrite sanitize_view by done. simpl.
  unfold sanitized_columns. rewrite H. simpl andb.
  destruct (bool_decide ("Status" ∈ columns df)) eqn:ES; simpl; [done|].
  apply bool_decide_eq_true. set_solver.
Qed.

Lemma exportable_view stored :
  df_empty stored = false →
  usable stored && forallb (λ c, has_col c (sanitize stored)) MAIN_COLUMNS
  = exportable stored.
Proof.
  intros E. unfold usable, exportable. rewrite E, !orb_false_l.
  unfold REQUIRED_COLUMNS, MAIN_COLUMNS, EXPORT_INPUT_COLUMNS. simpl forallb.
  pose proof (sanitize_has_col_inv pd stored) as H.
  rewrite (H "Date"), (H "Customer"), (H "Deposit Amount"), (H "Rate"),
    (H "Total Amount"), (H "Amount Paid"), (H "Outstanding") by done.
  pose proof (sanitize_has_Status stored E) as HS.
  destruct (has_col "Outstanding" stored).
  - rewrite HS by done.
    by destruct (has_col "Date" stored), (has_col "Customer" stored),
      (has_col "Deposit Amount" stored), (has_col "Rate" stored),
      (has_col "Total Amount" stored), (has_col "Amount Paid" stored).
  - by rewrite !andb_false_r.
Qed.

Lemma sidebar_export_view frames e oe stored :
  dict_get MAIN_SHEET frames = Some stored →
  sidebar_export pd write_excel frames e oe
  = if exportable stored
    then Ok (write_excel
               [(MAIN_SHEET,
                 if df_empty stored then sanitize stored
                 else Frame MAIN_COLUMNS
                        (map (reindex MAIN_COLUMNS) (rows (sanitize stored))));
                (CUSTOMER_SHEET, customer_table pd (sanitize stored));
                (PURCHASE_SHEET, purchase_table pd (sanitize stored));
                (DAILY_SHEET, daily_table pd (sanitize stored) e oe)])
    else Raise KeyError.
Proof.
  intros Hs. unfold sidebar_export. rewrite Hs, recompute_view.
  rewrite usable_sanitize, sanitize_idem.
  destruct (df_empty stored) eqn:E.
  - unfold usable, exportable. rewrite E, !orb_true_l.
    unfold mbind at 1, result_bind at 1.
    rewrite to_excel_bytes_bundle, export_sheet_main, sanitize_df_empty, E.
    reflexivity.
  - rewrite <- (exportable_view stored E).
    destruct (usable stored); [|done].
    rewrite andb_true_l. unfold mbind at 1, result_bind at 1.
    rewrite to_excel_bytes_bundle, export_sheet_main, sanitize_df_empty, E.
    by destruct (forallb _ MAIN_COLUMNS).
Qed.

End ExportExtras.

(** ** The password gate *)

(** The gate is sticky: after any number of runs the session passes the gate
    exactly when it had passed before or when one of the texts entered so far
    was the secret; later texts do not close it again, although a run whose
    text differs from the secret still shows "Incorrect password". *)
Theorem gate_opens_iff state secret boxes :
  (gate_after state secret boxes = Some true
   ↔ state = Some true ∨ secret ∈ boxes)
  ∧ ∀ box,
      check_password (Some true) box secret
      = Gate true (negb (String.eqb box secret)).
Proof.
  split.
  - revert state. induction boxes as [|box rest IH]; intros state; simpl.
    + rewrite elem_of_nil. naive_solver.
    + rewrite IH, elem_of_cons. unfold check_password.
      destruct (String.eqb_spec box secret) as [->|Hne]; simpl.
      * naive_solver.
      * destruct state as [[|]|]; naive_solver.
  - intros box. unfold check_password. by destruct (String.eqb box secret).
Qed.

(** ** Runs of the submit handler *)

Lemma reindex_keeps cs (r : gmap string cell) k v :
  k ∈ cs → r !! k = Some v → reindex cs r !! k = Some v.
Proof.
  intros Hk Hv. rewrite reindex_lookup, bool_decide_eq_true_2 by done.
  by rewrite lookup_total_alt, Hv.
Qed.

Lemma balanced_reindex cs r :
  (∀ c, c ∈ NUMERIC_COLUMNS → c ∈ cs) → balanced r → balanced (reindex cs r).
Proof.
  intros Hcs (d & rt & t & p & o & Hd & Hrt & Ht & Hp & Ho & E1 & E2).
  exists d, rt, t, p, o. unfold NUMERIC_COLUMNS in Hcs.
  repeat split; try done; apply reindex_keeps; try done; apply Hcs; set_solver.
Qed.

Lemma new_cells_numbers en :
  new_cells en !! "Deposit Amount" = Some (Num (deposit en))
  ∧ new_cells en !! "Rate" = Some (Num (rate en))
  ∧ new_cells en !! "Total Amount" = Some (Num (deposit en * rate en))
  ∧ new_cells en !! "Amount Paid" = Some (Num (amount_paid en))
  ∧ new_cells en !! "Customer" = Some (Text (strip (customer en)))
  ∧ new_cells en !! "Date" = Some (Day (entry_date en)).
Proof.
  unfold new_cells. cbv zeta.
  generalize (Qle_bool (deposit en * rate en - amount_paid en) 0) as b.
  generalize (deposit en * rate en - amount_paid en) as out.
  generalize (deposit en * rate en) as total.
  generalize (deposit en), (rate en), (amount_paid en), (entry_date en),
    (strip (customer en)).
  intros. repeat split; vm_compute; reflexivity.
Qed.

Lemma new_cells_balanced en : balanced (new_cells en).
Proof.
  destruct (new_cells_numbers en) as (Hd & Hr & Ht & Hp & _).
  exists (deposit en), (rate en), (deposit en * rate en), (amount_paid en),
    (deposit en * rate en - amount_paid en).
  repeat split; try done; first [apply new_cells_lookup|reflexivity].
Qed.

Lemma keys_have_ledger (frames : list (string * DataFrame)) :
  dict_keys frames = SHEETS → ∃ stored, dict_get MAIN_SHEET frames = Some stored.
Proof.
  destruct frames as [|[n stored] rest]; [done|].
  intros [= -> _]. by exists stored.
Qed.

Section RunFacts.

Variable pd : pandas.
Variable file : Type.
Variable read_excel : file → option (list (string * DataFrame)).
Variable write_excel : list (string * DataFrame) → file.

Local Abbreviation sanitize := (_sanitize_types pd).
Local Abbreviation submit' := (submit pd).

Lemma sanitize_canonical_columns df :
  columns df = MAIN_COLUMNS → columns (sanitize df) = MAIN_COLUMNS.
Proof.
  intros Hc. destruct (df_empty df) eqn:E.
  - by rewrite sanitize_empty.
  - rewrite sanitize_view by done. simpl. by rewrite Hc.
Qed.

Lemma concat_canonical_columns a en :
  columns a = MAIN_COLUMNS → columns (concat a (new_row en)) = MAIN_COLUMNS.
Proof. intros Hc. unfold concat. simpl. by rewrite Hc. Qed.

Lemma submit_rows frames e oe en stored :
  dict_get MAIN_SHEET frames = Some stored →
  ∃ out T,
    submit' frames e oe en = Ok (out, T)
    ∧ ledger_rows T
      = (length (rows stored)
         + if whitespace_only (customer en) then 0 else 1)%nat
    ∧ (dict_keys frames = SHEETS → dict_keys T = SHEETS).
Proof.
  intros Hs. rewrite (submit_view _ _ _ _ _ _ Hs).
  destruct (whitespace_only (customer en)); eexists _, _;
    (split; [reflexivity|]).
  - unfold ledger_rows. rewrite Hs. split; [lia|done].
  - split; [|done]. unfold ledger_rows, bundle.
    replace (dict_get MAIN_SHEET _) with
      (Some (sanitize (concat (sanitize stored) (new_row en)))) by reflexivity.
    destruct (appended_rows pd (sanitize stored) en) as [dates ->].
    rewrite length_app, !length_map. simpl.
    by rewrite sanitize_rows_length.
Qed.

Lemma submit_form_built frames e oe en out T :
  form_built frames → submit' frames e oe en = Ok (out, T) → form_built T.
Proof.
  intros (Hk & stored & Hs & Hc & Hb & Hst). rewrite (submit_view _ _ _ _ _ _ Hs).
  destruct (whitespace_only (customer en)); intros [= <- <-].
  { split; [done|]. by exists stored. }
  split; [done|]. eexists. split; [reflexivity|].
  pose proof (sanitize_canonical_columns _ Hc) as Hc1.
  pose proof (concat_canonical_columns _ en Hc1) as Hc2.
  split; [by apply sanitize_canonical_columns|].
  destruct (appended_rows pd (sanitize stored) en) as [dates ->]. rewrite Hc2.
  assert (has_in MAIN_COLUMNS "Outstanding" = true) as Hin by done.
  split.
  - apply Forall_app. split.
    + apply Forall_fmap, Forall_fmap.
      eapply Forall_impl; [apply (balanced_sanitize pd _ Hb)|].
      intros r Hr. unfold compose. apply balanced_sanitize_row, balanced_reindex; [|done].
      unfold NUMERIC_COLUMNS, MAIN_COLUMNS. set_solver.
    + constructor; [|done].
      apply balanced_sanitize_row, balanced_reindex; [|apply new_cells_balanced].
      unfold NUMERIC_COLUMNS, MAIN_COLUMNS. set_solver.
  - assert (∀ r, status_consistent
                   (sanitize_row pd dates (has_in MAIN_COLUMNS) r))
      as Hrow.
    { intros r. eapply status_consistent_intro.
      - by apply sanitize_row_Outstanding.
      - by apply sanitize_row_Status. }
    apply Forall_app. split; [|by constructor].
    apply Forall_fmap, Forall_forall. intros r _. apply Hrow.
Qed.

Lemma empty_frames_form_built : form_built _empty_frames.
Proof. split; [done|]. eexists. by repeat split. Qed.

Lemma handler_runs_stored subs frames :
  dict_keys frames = SHEETS →
  ∃ T,
    handler_runs pd read_excel None (Some frames) subs = Ok (Some T)
    ∧ dict_keys T = SHEETS
    ∧ ledger_rows T = (ledger_rows frames + length (filter named subs))%nat
    ∧ (form_built frames → form_built T).
Proof.
  revert frames. induction subs as [|s subs IH]; intros frames Hk.
  - exists frames. simpl. by rewrite Nat.add_0_r.
  - destruct (keys_have_ledger _ Hk) as (stored & Hs).
    destruct (submit_rows frames (sub_expense s) (sub_other s) (sub_entry s)
                stored Hs) as (out & T1 & Hsub & Hrows & Hkeys).
    destruct (IH T1 (Hkeys Hk)) as (T & Hrun & HkT & HrT & HfT).
    exists T. simpl handler_runs. unfold init_frames. rewrite Hsub.
    unfold mbind, result_bind. rewrite Hrun.
    split; [done|]. split; [done|]. split.
    + rewrite HrT, Hrows. unfold ledger_rows. rewrite Hs, filter_cons.
      assert (named s = negb (whitespace_only (customer (sub_entry s))))
        as Hn by done.
      destruct (whitespace_only (customer (sub_entry s)));
        case_decide as H; rewrite Hn in H; simpl in H; simpl;
        first [done|lia].
    + intros Hf. apply HfT. by eapply submit_form_built.
Qed.

(** Without an upload, a session that starts fresh keeps every submission
    that names a customer: after any number of runs of the submit handler
    the session holds the four named tables and its ledger has one row per
    such submission; the handler raises in none of these runs. *)
Theorem fresh_session_grows s subs :
  ∃ T,
    handler_runs pd read_excel None None (s :: subs) = Ok (Some T)
    ∧ dict_keys T = SHEETS
    ∧ ledger_rows T = length (filter named (s :: subs)).
Proof.
  destruct (handler_runs_stored (s :: subs) _empty_frames eq_refl)
    as (T & Hrun & Hk & Hr & _).
  exists T. split; [exact Hrun|]. split; [done|]. by rewrite Hr.
Qed.

(** A session that only the entry form has filled stays well formed: the
    ledger has the eight columns in the fixed order, every row is balanced
    (total amount = deposit times rate, outstanding = total amount - amount
    paid) and carries the status of its outstanding amount, and the export
    of the sidebar does not raise, whatever the expenses. *)
Theorem fresh_session_well_formed s subs e oe :
  ∃ T ledger sheets,
    handler_runs pd read_excel None None (s :: subs) = Ok (Some T)
    ∧ dict_get MAIN_SHEET T = Some ledger
    ∧ columns ledger = MAIN_COLUMNS
    ∧ Forall balanced (rows ledger)
    ∧ Forall status_consistent (rows ledger)
    ∧ sidebar_export pd write_excel T e oe = Ok (write_excel sheets).
Proof.
  destruct (handler_runs_stored (s :: subs) _empty_frames eq_refl)
    as (T & Hrun & Hk & _ & Hf).
  destruct (Hf empty_frames_form_built) as (_ & ledger & Hl & Hc & Hb & Hst).
  exists T, ledger. eexists. split; [exact Hrun|].
  split; [done|]. split; [done|]. split; [done|]. split; [done|].
  rewrite (sidebar_export_view pd _ write_excel _ _ _ _ Hl).
  replace (exportable ledger) with true; [reflexivity|].
  unfold exportable, has_col. rewrite Hc.
  by destruct (df_empty ledger).
Qed.

End RunFacts.

(** ** The preview and the stored row, the expense boxes *)

(** Whenever the total amount is positive the preview shows the status that
    the submission stores, and it shows the stored outstanding amount
    whenever that amount is not negative; the total amount shown is the one
    stored. *)
Theorem preview_agrees_with_stored en :
  0 < deposit en * rate en →
  new_cells en !! "Status" = Some (Text (preview_status en))
  ∧ new_cells en !! "Total Amount" = Some (Num (preview_total en))
  ∧ (0 <= deposit en * rate en - amount_paid en →
     new_cells en !! "Outstanding" = Some (Num (preview_outstanding en))).
Proof.
  intros Hpos.
  destruct (new_cells_lookup en) as [Ho Hs]. cbv zeta in Ho, Hs.
  destruct (new_cells_numbers en) as (_ & _ & Ht & _).
  unfold preview_status, preview_outstanding, preview_total, py_max, Qgt_bool.
  set (total := deposit en * rate en) in *.
  set (out := total - amount_paid en) in *.
  assert (Qle_bool total 0 = false) as ->.
  { apply not_true_iff_false. intros H%Qle_bool_iff. lra. }
  simpl negb. rewrite andb_true_r. split; [|split; [done|]].
  - rewrite Hs. destruct (Qle_bool 0 out) eqn:E; [done|].
    assert (Qle_bool out 0 = true) as ->; [|done].
    apply Qle_bool_iff. apply not_true_iff_false in E.
    destruct (Qlt_le_dec out 0) as [?|H]; [lra|].
    by apply Qle_bool_iff in H.
  - intros H%Qle_bool_iff. by rewrite H.
Qed.

Section ExpenseBoxes.

Variable pd : pandas.

Local Abbreviation recompute := (_recompute_from_main pd).

Lemma expense_defaults_table e oe t p profit :
  let daily := metric_table
    [("Expense", e); ("Other Expense", oe); ("Sum of Total Amount", t);
     ("Total Paid", p); ("Profit", profit)] in
  expense_default_source 0 "Expense" daily = Ok (Some (Num e))
  ∧ expense_default_source 1 "Other Expense" daily = Ok (Some (Num oe)).
Proof. split; vm_compute; reflexivity. Qed.

(** The expenses come back: in the daily summary of every bundle that the
    engine returns, the value that pre-fills the Expense box is the expense
    the bundle was computed with, and likewise for the Other Expense box;
    the canonical empty daily table pre-fills both with the literal 0.0. *)
Theorem expense_defaults_round_trip L e oe :
  usable L = true →
  ∃ main cust purchase daily,
    recompute L e oe
    = Ok [(MAIN_SHEET, main); (CUSTOMER_SHEET, cust);
          (PURCHASE_SHEET, purchase); (DAILY_SHEET, daily)]
    ∧ expense_default_source 0 "Expense" daily = Ok (Some (Num e))
    ∧ expense_default_source 1 "Other Expense" daily = Ok (Some (Num oe))
    ∧ (expense_default_source 0 "Expense" <$> dict_get DAILY_SHEET _empty_frames)
      = Some (Ok None)
    ∧ (expense_default_source 1 "Other Expense"
         <$> dict_get DAILY_SHEET _empty_frames)
      = Some (Ok None).
Proof.
  intros U. rewrite recompute_view, U. unfold bundle, daily_table.
  eexists _, _, _, _. split; [reflexivity|].
  destruct (expense_defaults_table e oe
              (col_total pd "Total Amount" (_sanitize_types pd L))
              (col_total pd "Amount Paid" (_sanitize_types pd L))
              (col_total pd "Total Amount" (_sanitize_types pd L)
               - col_total pd "Amount Paid" (_sanitize_types pd L) - e - oe))
    as [H0 H1].
  by repeat split.
Qed.

End ExpenseBoxes.

(** ** Customer names are trimmed before they are stored *)

Section TrimmedNames.

Variable pd : pandas.
Variable file : Type.
Variable read_excel : file → option (list (string * DataFrame)).

Local Abbreviation sanitize := (_sanitize_types pd).
Local Abbreviation stored := (stored_as pd).

Lemma stored_as_Customer dates (r : gmap string cell) v :
  r !! "Customer" = Some v → stored dates r !! "Customer" = Some v.
Proof.
  intros Hv. unfold stored_as. rewrite sanitize_row_other.
  - apply reindex_keeps; [|done]. unfold MAIN_COLUMNS. set_solver.
  - unfold NUMERIC_COLUMNS. set_solver.
Qed.

Lemma stored_as_number dates (r : gmap string cell) c x :
  c ∈ NUMERIC_COLUMNS → r !! c = Some (Num x) →
  stored dates r !! c = Some (Num x).
Proof.
  intros Hc Hx. unfold stored_as. rewrite sanitize_row_coerced by done.
  assert (c ∈ MAIN_COLUMNS) as Hin
    by (unfold NUMERIC_COLUMNS, MAIN_COLUMNS in *; set_solver).
  unfold has_in. rewrite bool_decide_eq_true_2 by done.
  by rewrite reindex_total, lookup_total_alt, Hx.
Qed.

Lemma first_submission e oe en :
  whitespace_only (customer en) = false →
  ∃ main dates,
    submit pd _empty_frames e oe en
    = Ok (Added "Entry added and summaries updated.", bundle pd main e oe)
    ∧ sanitize main = main
    ∧ columns main = MAIN_COLUMNS
    ∧ rows main = [stored dates (new_cells en)].
Proof.
  intros Hw.
  destruct (appended_rows pd (empty_frame MAIN_COLUMNS) en) as [dates Hrows].
  eexists _, dates.
  rewrite (submit_view pd _ _ _ _ (empty_frame MAIN_COLUMNS)) by reflexivity.
  rewrite Hw. split; [reflexivity|]. split; [apply sanitize_idem|].
  rewrite (sanitize_empty pd (empty_frame MAIN_COLUMNS)) by reflexivity.
  split; [by apply sanitize_canonical_columns|].
  by rewrite Hrows.
Qed.

Lemma second_submission main e0 oe0 e oe en :
  whitespace_only (customer en) = false →
  sanitize main = main → columns main = MAIN_COLUMNS →
  ∃ main' dates,
    submit pd (bundle pd main e0 oe0) e oe en
    = Ok (Added "Entry added and summaries updated.", bundle pd main' e oe)
    ∧ df_empty main' = false
    ∧ rows main'
      = map (stored dates) (rows main) ++ [stored dates (new_cells en)].
Proof.
  intros Hw Hfix Hc.
  destruct (appended_rows pd main en) as [dates Hrows].
  eexists _, dates.
  rewrite (submit_view pd _ _ _ _ main) by reflexivity.
  rewrite Hw, Hfix. split; [reflexivity|]. split.
  - rewrite sanitize_df_empty. apply concat_new_row_usable.
  - rewrite Hrows, (concat_canonical_columns _ _ Hc).
    by rewrite map_map.
Qed.

(** Names are compared after trimming: two submissions to a fresh session
    whose customer names differ only by surrounding white space are stored
    under one name, and the customer summary has a single row for them,
    whose totals are the group sums of their two deposits and of their two
    payments. *)
Theorem same_name_one_customer s1 s2 :
  named s1 = true → named s2 = true →
  strip (customer (sub_entry s1)) = strip (customer (sub_entry s2)) →
  ∃ T cust row,
    handler_runs pd read_excel None None [s1; s2] = Ok (Some T)
    ∧ dict_get CUSTOMER_SHEET T = Some cust
    ∧ rows cust = [row]
    ∧ row !! "Customer" = Some (Text (strip (customer (sub_entry s1))))
    ∧ row !! "Total Deposit"
      = Some (Num (group_sum pd [deposit (sub_entry s1);
                                 deposit (sub_entry s2)]))
    ∧ row !! "Total Paid"
      = Some (Num (group_sum pd [amount_paid (sub_entry s1);
                                 amount_paid (sub_entry s2)])).
Proof.
  unfold named. intros Hn1%negb_true_iff Hn2%negb_true_iff Hname.
  destruct (first_submission (sub_expense s1) (sub_other s1) (sub_entry s1) Hn1)
    as (main1 & dates1 & Hsub1 & Hfix & Hc1 & Hr1).
  destruct (second_submission main1 (sub_expense s1) (sub_other s1)
              (sub_expense s2) (sub_other s2) (sub_entry s2) Hn2 Hfix Hc1)
    as (main2 & dates2 & Hsub2 & E2 & Hr2).
  rewrite Hr1 in Hr2. simpl in Hr2.
  set (nm := strip (customer (sub_entry s1))) in *.
  set (r1 := stored dates2 (stored dates1 (new_cells (sub_entry s1)))) in *.
  set (r2 := stored dates2 (new_cells (sub_entry s2))) in *.
  destruct (new_cells_numbers (sub_entry s1)) as (Hd1 & _ & _ & Hp1 & Hk1 & _).
  destruct (new_cells_numbers (sub_entry s2)) as (Hd2 & _ & _ & Hp2 & Hk2 & _).
  rewrite <- Hname in Hk2. fold nm in Hk1, Hk2.
  assert (r1 !!! "Customer" = Text nm ∧ r2 !!! "Customer" = Text nm) as [Hc Hc'].
  { rewrite !lookup_total_alt. subst r1 r2.
    rewrite (stored_as_Customer dates2 (new_cells (sub_entry s2)) (Text nm))
      by done.
    rewrite (stored_as_Customer dates2
               (stored dates1 (new_cells (sub_entry s1))) (Text nm))
      by by apply stored_as_Customer.
    done. }
  assert (∀ c x1 x2, c ∈ NUMERIC_COLUMNS →
            new_cells (sub_entry s1) !! c = Some (Num x1) →
            new_cells (sub_entry s2) !! c = Some (Num x2) →
            r1 !!! c = Num x1 ∧ r2 !!! c = Num x2) as Hnum.
  { intros c x1 x2 Hin H1 H2. rewrite !lookup_total_alt. subst r1 r2.
    rewrite (stored_as_number _ _ c x1), (stored_as_number _ _ c x2); [done..|].
    by apply stored_as_number. }
  clearbody r1 r2.
  assert (∀ c x1 x2, c ∈ NUMERIC_COLUMNS →
            new_cells (sub_entry s1) !! c = Some (Num x1) →
            new_cells (sub_entry s2) !! c = Some (Num x2) →
            group_total pd c (Text nm) main2 = group_sum pd [x1; x2]) as Hsum.
  { intros c x1 x2 Hin H1 H2. unfold group_total, group_rows. rewrite Hr2.
    destruct (Hnum c x1 x2 Hin H1 H2) as [E1 E2'].
    rewrite filter_cons, decide_True by (by rewrite Hc).
    rewrite filter_cons, decide_True by (by rewrite Hc').
    rewrite filter_nil. unfold sum_group. simpl. by rewrite E1, E2'. }
  assert (group_keys "Customer" main2 = [Text nm]) as Hkeys.
  { unfold group_keys. rewrite Hr2. simpl map. rewrite Hc, Hc'. simpl key_of.
    replace (remove_dups [Text nm; Text nm]) with [Text nm]; [reflexivity|].
    simpl. destruct (decide_rel _ _ _) as [|Hn]; [done|].
    destruct Hn. apply list_elem_of_here. }
  eexists _, _, _. split.
  { unfold handler_runs, init_frames. rewrite Hsub1.
    unfold mbind at 1, result_bind at 1. cbv beta iota. rewrite Hsub2.
    reflexivity. }
  split; [reflexivity|]. unfold customer_table. rewrite E2. simpl rows.
  rewrite Hkeys. simpl map. split; [reflexivity|].
  destruct (customer_row_lookup pd main2 (Text nm)) as (Hk & Hd & Hp & _).
  split; [exact Hk|].
  assert ("Deposit Amount" ∈ NUMERIC_COLUMNS ∧ "Amount Paid" ∈ NUMERIC_COLUMNS)
    as [Hin1 Hin2] by (split; apply (bool_decide_unpack _); by vm_compute).
  rewrite <- (Hsum "Deposit Amount" _ _ Hin1 Hd1 Hd2).
  rewrite <- (Hsum "Amount Paid" _ _ Hin2 Hp1 Hp2).
  by split.
Qed.

End TrimmedNames.

(** ** The further properties on the sample data *)

Lemma sanitize_shape_sample :
  df_empty no_status_ledger = false
  ∧ columns (_sanitize_types plain_pandas no_status_ledger) = MAIN_COLUMNS.
Proof.
  split; [reflexivity|].
  rewrite (proj2 (proj2 (sanitize_shape plain_pandas no_status_ledger)) eq_refl).
  reflexivity.
Defined.

Lemma sanitize_types_cells_sample :
  df_empty sample_ledger = false
  ∧ Forall2 (λ r r' : gmap string cell,
               (∀ c, c ∈ NUMERIC_COLUMNS → c ∈ columns sample_ledger →
                     r' !! c
                     = Some (Num (default 0 (to_numeric plain_pandas (r !!! c)))))
               ∧ ("Date" ∈ columns sample_ledger →
                  r' !! "Date" = Some NaN
                  ∨ ∃ d, r' !! "Date" = Some (Day d)
                         ∧ timestamp_range plain_pandas d = true))
            (rows sample_ledger)
            (rows (_sanitize_types plain_pandas sample_ledger)).
Proof.
  split; [reflexivity|].
  apply (sanitize_types_cells plain_pandas sample_ledger).
  reflexivity.
Defined.

Lemma customer_summary_rows_sample :
  (usable sample_ledger = true ∧ df_empty sample_ledger = false)
  ∧ ∃ main cust purchase daily,
      _recompute_from_main plain_pandas sample_ledger 10 5
      = Ok [(MAIN_SHEET, main); (CUSTOMER_SHEET, cust);
            (PURCHASE_SHEET, purchase); (DAILY_SHEET, daily)]
      ∧ columns cust = CUSTOMER_COLUMNS
      ∧ NoDup (map (λ r : gmap string cell, r !!! "Customer") (rows cust))
      ∧ (∀ k, k ∈ map (λ r : gmap string cell, r !!! "Customer") (rows cust)
              ↔ ∃ r, r ∈ rows main ∧ key_of (r !!! "Customer") = k)
      ∧ (0 < length (rows cust) ≤ length (rows main))%nat.
Proof.
  split; [split; reflexivity|].
  apply (customer_summary_rows plain_pandas sample_ledger 10 5); reflexivity.
Defined.

Lemma to_excel_bytes_idempotent_sample :
  _to_excel_bytes sheets_writer sample_workbook
  = Ok (written (_to_excel_bytes sheets_writer sample_workbook))
  ∧ ∃ sheets,
      written (_to_excel_bytes sheets_writer sample_workbook)
      = sheets_writer sheets
      ∧ _to_excel_bytes sheets_writer sheets
        = Ok (written (_to_excel_bytes sheets_writer sample_workbook))
      ∧ dict_keys sheets = dict_keys sample_workbook
      ∧ Forall2 (λ a b : string * DataFrame,
                   a.1 = b.1 ∧ (a.1 ≠ MAIN_SHEET → b.2 = a.2))
                sample_workbook sheets.
Proof.
  assert (_to_excel_bytes sheets_writer sample_workbook
          = Ok (written (_to_excel_bytes sheets_writer sample_workbook))) as H
    by (vm_compute; reflexivity).
  split; [exact H|].
  apply (to_excel_bytes_idempotent _ sheets_writer sample_workbook _ H).
Defined.

Lemma preview_agrees_with_stored_sample :
  0 < deposit alice_entry * rate alice_entry
  ∧ new_cells alice_entry !! "Status" = Some (Text (preview_status alice_entry))
  ∧ new_cells alice_entry !! "Total Amount"
    = Some (Num (preview_total alice_entry))
  ∧ (0 <= deposit alice_entry * rate alice_entry - amount_paid alice_entry →
     new_cells alice_entry !! "Outstanding"
     = Some (Num (preview_outstanding alice_entry))).
Proof.
  split; [reflexivity|].
  apply (preview_agrees_with_stored alice_entry). reflexivity.
Defined.

Lemma expense_defaults_round_trip_sample :
  usable sample_ledger = true
  ∧ ∃ main cust purchase daily,
      _recompute_from_main plain_pandas sample_ledger 10 5
      = Ok [(MAIN_SHEET, main); (CUSTOMER_SHEET, cust);
            (PURCHASE_SHEET, purchase); (DAILY_SHEET, daily)]
      ∧ expense_default_source 0 "Expense" daily = Ok (Some (Num 10))
      ∧ expense_default_source 1 "Other Expense" daily = Ok (Some (Num 5))
      ∧ (expense_default_source 0 "Expense"
           <$> dict_get DAILY_SHEET _empty_frames)
        = Some (Ok None)
      ∧ (expense_default_source 1 "Other Expense"
           <$> dict_get DAILY_SHEET _empty_frames)
        = Some (Ok None).
Proof.
  split; [reflexivity|].
  apply (expense_defaults_round_trip plain_pandas sample_ledger 10 5).
  reflexivity.
Defined.

Lemma same_name_one_customer_sample :
  (named alice_submission = true
   ∧ named alice_again_submission = true
   ∧ strip (customer (sub_entry alice_submission))
     = strip (customer (sub_entry alice_again_submission)))
  ∧ ∃ T cust row,
      handler_runs binary64_pandas sheets_reader None None
        [alice_submission; alice_again_submission] = Ok (Some T)
      ∧ dict_get CUSTOMER_SHEET T = Some cust
      ∧ rows cust = [row]
      ∧ row !! "Customer" = Some (Text "Alice")
      ∧ row !! "Total Deposit" = Some (Num 1300)
      ∧ row !! "Total Paid" = Some (Num 800).
Proof.
  split; [split; [reflexivity|split; [reflexivity|vm_compute; reflexivity]]|].
  destruct (same_name_one_customer binary64_pandas _ sheets_reader
              alice_submission alice_again_submission)
    as (T & cust & row & Hrun & Hcust & Hrows & Hname & Hd & Hp);
    [reflexivity|reflexivity|vm_compute; reflexivity|].
  exists T, cust, row. split; [exact Hrun|]. split; [exact Hcust|].
  split; [exact Hrows|]. split; [exact Hname|]. split; [exact Hd|exact Hp].
Defined.
